(** * GithubToMisskey: the webhook receiver of [run.py]

    A shallow embedding of [run.py] (a Flask route that receives GitHub
    webhooks, formats the commits of a push and relays the text to Misskey
    and to a local file) and the properties of its request pipeline.

    Python values are the values [json.loads] produces.  Exceptions are
    results: a computation returns [Ok v] or [Raise e], and the effects it
    made before raising stay in the world.  Text is kept as UTF-8 bytes. *)

From Stdlib Require Import String Ascii List ZArith Lia Bool PrimFloat DecimalString.
Import ListNotations.
Set Warnings "-register-all".
Local Open Scope string_scope.
Local Open Scope Z_scope.

(** ** Python values *)

(** What [json.loads] returns: [None], [bool], [int], [float], [str], [list]
    and [dict].  A dict is its items in insertion order; [dict_get] reads the
    first binding of a key. *)
Inductive pyval : Type :=
| PNone
| PBool (b : bool)
| PInt (n : Z)
| PFloat (x : float)
| PStr (s : string)
| PList (xs : list pyval)
| PDict (items : list (string * pyval)).

Fixpoint dict_get (items : list (string * pyval)) (k : string) : option pyval :=
  match items with
  | [] => None
  | (k', v) :: rest => if String.eqb k' k then Some v else dict_get rest k
  end.

Fixpoint dict_keys (items : list (string * pyval)) : list string :=
  match items with
  | [] => []
  | (k, _) :: rest => k :: dict_keys rest
  end.

(** ** Text *)

Definition nl : string := String (ascii_of_nat 10) EmptyString.

(** [needle in s] on [str]. *)
Fixpoint contains (needle s : string) : bool :=
  String.prefix needle s ||
  match s with
  | EmptyString => false
  | String _ s' => contains needle s'
  end.

(** A byte that continues a UTF-8 sequence: [10xxxxxx]. *)
Definition is_continuation (c : ascii) : bool :=
  let n := nat_of_ascii c in (Nat.leb 128 n && Nat.ltb n 192)%bool.

(** The code points of a [str], each as a one-character [str]: what
    iterating over a [str] yields. *)
Fixpoint str_chars_from (cur : string) (s : string) : list string :=
  match s with
  | EmptyString => match cur with EmptyString => [] | _ => [cur] end
  | String c s' =>
      if is_continuation c then str_chars_from (cur ++ String c EmptyString) s'
      else match cur with
           | EmptyString => str_chars_from (String c EmptyString) s'
           | _ => cur :: str_chars_from (String c EmptyString) s'
           end
  end.

Definition str_chars (s : string) : list string := str_chars_from EmptyString s.

(** [s.split(sep)] for a one-byte separator: never empty. *)
Fixpoint str_split_from (sep : ascii) (cur : string) (s : string) : list string :=
  match s with
  | EmptyString => [cur]
  | String c s' =>
      if Ascii.eqb c sep then cur :: str_split_from sep EmptyString s'
      else str_split_from sep (cur ++ String c EmptyString) s'
  end.

Definition str_split (sep : ascii) (s : string) : list string :=
  str_split_from sep EmptyString s.

(** ** Exceptions *)

(** The exception classes the program names, raises or lets through.  A
    library exception is filed under the first class of the route's
    [except] chain that it is an instance of; [OtherException] is any other
    subclass of [Exception]. *)
Inductive exn_class : Type :=
| KeyError
| ValueError
| ConnectionError
| PermissionError
| TypeError
| AttributeError
| ValidationError
| OtherException.

(** An exception: its class and its message.  For every class but
    [ValidationError] the message is [str(e)]; a [ValidationError] computes
    its [str] when asked (see [py_validation_text]). *)
Record exn : Type := Exn { exn_type : exn_class; exn_str : string }.

Inductive result (A : Type) : Type :=
| Ok (a : A)
| Raise (e : exn).
Arguments Ok {A} a.
Arguments Raise {A} e.

Definition rbind {A B : Type} (r : result A) (k : A -> result B) : result B :=
  match r with
  | Ok a => k a
  | Raise e => Raise e
  end.

(** ** The Python runtime *)

(** The errors the interpreter and [jsonschema] raise on a value of the
    wrong kind; their message text belongs to the runtime. *)
Inductive pyfault : Type :=
| NotSubscriptable (v : pyval) (key : string)
| NotIterable (v : pyval)
| NoLen (v : pyval)
| NoAttribute (v : pyval) (attr : string)
| SchemaViolation (v : pyval).

(** The built-ins whose text this development does not fix: [str()] of a
    value that is not a [str], [str.lower()], the messages of the
    exceptions above, and [str(ve)] of the [ValidationError] that
    [validate] raises on an instance.  The messages are built when the
    exception is raised.  [str(ve)] is not: [jsonschema] computes it each
    time it is asked for, pretty-printing the schema and the failing value,
    and that computation raises ([RecursionError]) on a value that is nested
    too deep.  Every theorem holds for every runtime. *)
Class PyRuntime : Type := {
  py_str : pyval -> string;
  py_lower : string -> string;
  py_fault_text : pyfault -> string;
  py_validation_text : pyval -> result string
}.

(** [f"{v}"]: a [str] is inserted as it is, any other value through
    [str()]. *)
Definition fstr `{PyRuntime} (v : pyval) : string :=
  match v with
  | PStr s => s
  | _ => py_str v
  end.

(** [f"{h}"] for the result of [headers.get]: a [str] or [None]. *)
Definition fstr_header (h : option string) : string :=
  match h with
  | Some s => s
  | None => "None"
  end.

(** [str(KeyError(k))] is [repr(k)]; the keys of this program are plain
    ASCII words, whose [repr] is the word in single quotes. *)
Definition key_repr (k : string) : string := "'" ++ k ++ "'".

Section Operations.
Context `{PyRuntime}.

(** [v[k]] with a [str] key. *)
Definition py_subscript (v : pyval) (k : string) : result pyval :=
  match v with
  | PDict items =>
      match dict_get items k with
      | Some x => Ok x
      | None => Raise (Exn KeyError (key_repr k))
      end
  | _ => Raise (Exn TypeError (py_fault_text (NotSubscriptable v k)))
  end.

(** [v.get(k, default)]. *)
Definition py_get (v : pyval) (k : string) (default : pyval) : result pyval :=
  match v with
  | PDict items =>
      match dict_get items k with
      | Some x => Ok x
      | None => Ok default
      end
  | _ => Raise (Exn AttributeError (py_fault_text (NoAttribute v "get")))
  end.

(** [v.split('/')]. *)
Definition py_split (v : pyval) (sep : ascii) : result (list string) :=
  match v with
  | PStr s => Ok (str_split sep s)
  | _ => Raise (Exn AttributeError (py_fault_text (NoAttribute v "split")))
  end.

(** [len(v)]. *)
Definition py_len (v : pyval) : result Z :=
  match v with
  | PList xs => Ok (Z.of_nat (length xs))
  | PDict items => Ok (Z.of_nat (length items))
  | PStr s => Ok (Z.of_nat (length (str_chars s)))
  | _ => Raise (Exn TypeError (py_fault_text (NoLen v)))
  end.

(** The values [for x in v] runs through. *)
Definition py_iter (v : pyval) : result (list pyval) :=
  match v with
  | PList xs => Ok xs
  | PDict items => Ok (map PStr (dict_keys items))
  | PStr s => Ok (map PStr (str_chars s))
  | _ => Raise (Exn TypeError (py_fault_text (NotIterable v)))
  end.
End Operations.

(** ** The world of one request *)

Inductive log_level : Type := INFO | WARNING | ERROR.

(** The calls into the libraries and the file system: [jsonschema.validate],
    the [Misskey] client constructor, [api.notes_create] and the append to
    [github_push_info.txt]; the sinks carry whether the call succeeded. *)
Inductive call : Type :=
| CallValidate (instance : pyval)
| CallMisskey (url token : string) (ok : bool)
| CallNotesCreate (text : string) (ok : bool)
| CallFileAppend (text : string) (ok : bool).

Record world : Type := World {
  log : list (log_level * string);
  stdout : list string;
  calls : list call;
  misskey_notes : list string;
  push_info_file : string
}.

(** What the surroundings answer during a request: the process environment
    and, for each collaborator, [None] when the call succeeds or the
    exception it raises. *)
Record host : Type := Host {
  environ : string -> option string;
  misskey_connect : string -> string -> option exn;
  notes_create : string -> option exn;
  file_append : string -> option exn
}.

(** State and exceptions: the world is kept when an exception is raised. *)
Definition M (A : Type) : Type := world -> result A * world.

Definition ret {A : Type} (a : A) : M A := fun w => (Ok a, w).

Definition raise {A : Type} (e : exn) : M A := fun w => (Raise e, w).

Definition bind {A B : Type} (m : M A) (k : A -> M B) : M B :=
  fun w =>
    match m w with
    | (Ok a, w') => k a w'
    | (Raise e, w') => (Raise e, w')
    end.

Definition lift {A : Type} (r : result A) : M A := fun w => (r, w).

(** [try: m / except Exception as e: handler e]. *)
Definition try_except {A : Type} (m : M A) (handler : exn -> M A) : M A :=
  fun w =>
    match m w with
    | (Ok a, w') => (Ok a, w')
    | (Raise e, w') => handler e w'
    end.

Declare Scope py_scope.
Delimit Scope py_scope with py.
Notation "x <- m ;; k" := (bind m (fun x => k))
  (at level 61, m at next level, right associativity) : py_scope.
Notation "m ;; k" := (bind m (fun _ => k))
  (at level 61, right associativity) : py_scope.
Local Open Scope py_scope.

Definition logger (level : log_level) (msg : string) : M unit :=
  fun w => (Ok tt, World (log w ++ [(level, msg)]) (stdout w) (calls w)
                         (misskey_notes w) (push_info_file w)).

Definition print (msg : string) : M unit :=
  fun w => (Ok tt, World (log w) (stdout w ++ [msg]) (calls w)
                         (misskey_notes w) (push_info_file w)).

Definition record_call (c : call) : M unit :=
  fun w => (Ok tt, World (log w) (stdout w) (calls w ++ [c])
                         (misskey_notes w) (push_info_file w)).

(** ** Responses *)

(** [(jsonify(body), status_code)]. *)
Record response : Type := Response {
  body : list (string * string);
  status_code : Z
}.

Definition generate_error_response (status_code : Z) (message detail : string)
    (error_code : option string) : response :=
  let response := [("status", "error"); ("message", message); ("detail", detail)] in
  let response :=
    match error_code with
    | Some (String c rest) => (response ++ [("error_code", String c rest)])%list
    | _ => response
    end in
  Response response status_code.

Fixpoint body_get (b : list (string * string)) (k : string) : option string :=
  match b with
  | [] => None
  | (k', v) :: rest => if String.eqb k' k then Some v else body_get rest k
  end.

(** ** The schema of a push event *)

Inductive json_type : Type := TObject | TArray | TString.

(** A schema made of the keywords [push_event_schema] uses: ["type"],
    ["properties"] and ["required"]. *)
Inductive schema : Type :=
| Schema (type : option json_type) (properties : list (string * schema))
         (required : list string).

Definition push_event_schema : schema :=
  Schema (Some TObject)
    [ ("repository",
        Schema (Some TObject) [("name", Schema (Some TString) [] [])] ["name"]);
      ("ref", Schema (Some TString) [] []);
      ("commits", Schema (Some TArray) [] []) ]
    ["repository"; "ref"; "commits"].

Definition has_type (t : json_type) (v : pyval) : bool :=
  match t, v with
  | TObject, PDict _ => true
  | TArray, PList _ => true
  | TString, PStr _ => true
  | _, _ => false
  end.

Definition has_key (items : list (string * pyval)) (k : string) : bool :=
  match dict_get items k with
  | Some _ => true
  | None => false
  end.

(** The JSON Schema meaning of the three keywords: ["type"] holds of every
    instance, ["properties"] and ["required"] only constrain objects, and
    ["properties"] only the members that are present. *)
Fixpoint is_valid (s : schema) (v : pyval) : bool :=
  match s with
  | Schema type properties required =>
      match type with
      | Some t => has_type t v
      | None => true
      end
      &&
      match v with
      | PDict items =>
          (fix properties_valid (ps : list (string * schema)) : bool :=
             match ps with
             | [] => true
             | (k, sk) :: ps' =>
                 match dict_get items k with
                 | Some x => is_valid sk x
                 | None => true
                 end && properties_valid ps'
             end) properties
          && forallb (has_key items) required
      | _ => true
      end
  end.

(** ** The request *)

(** What the route reads of a Flask request: the method, the result of
    [request.headers.get('X-GitHub-Event')], and the body as [json.loads]
    reads it ([None] when the body is not JSON). *)
Record request : Type := Request {
  method : string;
  X_GitHub_Event : option string;
  json_body : option pyval
}.

(** [request.get_json(silent=True)]: the parsed body, and [None] when it
    cannot be parsed; the JSON text [null] parses to [None] as well. *)
Definition get_json_silent (rq : request) : pyval :=
  match json_body rq with
  | Some v => v
  | None => PNone
  end.

(** [event_type == name]. *)
Definition header_is (event_type : option string) (name : string) : bool :=
  match event_type with
  | Some s => String.eqb s name
  | None => false
  end.

Notation "x <~ r ;; k" := (rbind r (fun x => k))
  (at level 61, r at next level, right associativity) : py_scope.

(** ** The program *)

Section Program.
Context `{PyRuntime} (h : host).

(** [os.environ.get(name, default)]. *)
Definition environ_get (name default : string) : string :=
  match environ h name with
  | Some v => v
  | None => default
  end.

(** [jsonschema.validate(instance, schema)]; the exception carries the
    message of the violation. *)
Definition validate (instance : pyval) (s : schema) : M unit :=
  record_call (CallValidate instance) ;;
  if is_valid s instance then ret tt
  else raise (Exn ValidationError (py_fault_text (SchemaViolation instance))).

(** [Misskey(url, i=token)]. *)
Definition Misskey (url token : string) : M unit :=
  match misskey_connect h url token with
  | None => record_call (CallMisskey url token true)
  | Some e => record_call (CallMisskey url token false) ;; raise e
  end.

(** [api.notes_create(text=text)]. *)
Definition api_notes_create (text : string) : M unit :=
  match notes_create h text with
  | None =>
      fun w => (Ok tt, World (log w) (stdout w)
                             (calls w ++ [CallNotesCreate text true])
                             (misskey_notes w ++ [text]) (push_info_file w))
  | Some e => record_call (CallNotesCreate text false) ;; raise e
  end.

(** [with open('github_push_info.txt', 'a') as file: file.write(text)]. *)
Definition open_append_write (text : string) : M unit :=
  match file_append h text with
  | None =>
      fun w => (Ok tt, World (log w) (stdout w)
                             (calls w ++ [CallFileAppend text true])
                             (misskey_notes w) (push_info_file w ++ text))
  | Some e => record_call (CallFileAppend text false) ;; raise e
  end.

(** One [for file in files: all_info_text += f"<tag>{file}\n"] loop. *)
Definition append_file_lines (tag : string) (files : list pyval)
    (all_info_text : string) : string :=
  fold_left (fun text file => text ++ tag ++ fstr file ++ nl) files all_info_text.

(** The body of the loop over the commits. *)
Definition append_commit (all_info_text : string) (commit : pyval) : result string :=
  let all_info_text :=
    all_info_text ++
    "文档已更新～构建可能还需要一段时间，请耐心等待完成，预计1~5分钟:x11:" ++ nl ++ nl in
  message <~ py_subscript commit "message" ;;
  let all_info_text := all_info_text ++ "更新日志: " ++ fstr message ++ nl in
  author <~ py_subscript commit "author" ;;
  name <~ py_subscript author "name" ;;
  let all_info_text := all_info_text ++ "更新作者: " ++ fstr name ++ nl in
  let all_info_text :=
    all_info_text ++ "文件变化（该提交中修改、新增和删除的文件）:" ++ nl in
  let all_info_text := all_info_text ++ "```" ++ nl in
  modified_files <~ py_get commit "modified" (PList []) ;;
  added_files <~ py_get commit "added" (PList []) ;;
  removed_files <~ py_get commit "removed" (PList []) ;;
  files <~ py_iter modified_files ;;
  let all_info_text := append_file_lines "  [修改] " files all_info_text in
  files <~ py_iter added_files ;;
  let all_info_text := append_file_lines "  [新增] " files all_info_text in
  files <~ py_iter removed_files ;;
  let all_info_text := append_file_lines "  [删除] " files all_info_text in
  Ok (all_info_text ++ "```" ++ nl).

(** [for commit in commits: ...]. *)
Fixpoint for_each_commit (commits : list pyval) (all_info_text : string)
    : result string :=
  match commits with
  | [] => Ok all_info_text
  | commit :: rest =>
      all_info_text <~ append_commit all_info_text commit ;;
      for_each_commit rest all_info_text
  end.

Definition build_commit_info_text (commits : pyval) : M string :=
  let all_info_text := "" in
  n <- lift (py_len commits) ;;
  if 100 <? n then
    logger ERROR "提交数量过多，可能存在异常" ;;
    raise (Exn ValueError "提交数量超过限制")
  else
    items <- lift (py_iter commits) ;;
    lift (for_each_commit items all_info_text).

Definition push_info_to_misskey (all_info_text : string) : M unit :=
  let misskey_url := environ_get "MISSKEY_URL" "填写你的misskey域名" in
  let access_token :=
    environ_get "MISSKEY_ACCESS_TOKEN" "填写misskey账号的ACCESS TOKEN" in
  Misskey misskey_url access_token ;;
  try_except
    (api_notes_create all_info_text ;;
     logger INFO "已成功将提交信息和文件变化信息推送到Misskey")
    (fun e =>
       logger ERROR ("推送信息到Misskey时出错: " ++ exn_str e) ;;
       if contains "network" (py_lower (exn_str e)) then
         raise (Exn ConnectionError "与Misskey平台连接失败，请检查网络设置")
       else if contains "permission" (py_lower (exn_str e)) then
         raise (Exn PermissionError
                  "Misskey平台访问权限验证失败，请检查访问令牌是否正确")
       else raise e).

Definition save_info_to_file (all_info_text : string) : M unit :=
  open_append_write all_info_text.

Definition handle_github_push_event (data : pyval) : M unit :=
  repository <- lift (py_get data "repository" (PDict [])) ;;
  repo_name <- lift (py_get repository "name" PNone) ;;
  ref <- lift (py_get data "ref" PNone) ;;
  parts <- lift (py_split ref "/"%char) ;;
  let branch_name := last parts "" in
  logger INFO ("处理GitHub推送事件，仓库: " ++ fstr repo_name ++
               "，分支: " ++ branch_name) ;;
  commits <- lift (py_get data "commits" (PList [])) ;;
  all_info_text <- build_commit_info_text commits ;;
  push_info_to_misskey all_info_text ;;
  save_info_to_file all_info_text.

Definition handle_github_pull_request_event (data : pyval) : M unit :=
  logger INFO ("处理GitHub Pull Request事件: " ++ fstr data).

(** The [except] chain around [handle_github_push_event]. *)
Definition push_event_failed (e : exn) : M (option response) :=
  match exn_type e with
  | KeyError =>
      logger ERROR ("处理推送事件时键不存在错误: " ++ exn_str e) ;;
      ret (Some (generate_error_response 500 "处理推送事件键不存在错误"
                   (exn_str e) (Some "KEY_MISSING")))
  | ValueError =>
      logger ERROR ("处理推送事件时出现值错误: " ++ exn_str e) ;;
      ret (Some (generate_error_response 400 "提交数量异常"
                   (exn_str e) (Some "VALUE_ERROR")))
  | ConnectionError =>
      logger ERROR ("与外部平台连接出错: " ++ exn_str e) ;;
      ret (Some (generate_error_response 500 "与Misskey平台连接失败"
                   (exn_str e) (Some "CONNECTION_ERROR")))
  | PermissionError =>
      logger ERROR ("权限验证出错: " ++ exn_str e) ;;
      ret (Some (generate_error_response 500 "Misskey平台访问权限验证失败"
                   (exn_str e) (Some "PERMISSION_ERROR")))
  | _ =>
      logger ERROR ("处理GitHub推送事件时出错: " ++ exn_str e) ;;
      ret (Some (generate_error_response 500 "处理推送事件失败"
                   (exn_str e) (Some "GENERAL_ERROR")))
  end.

(** The route; [Some response] is a [return] inside a branch, [None] falls
    through to the [return] that follows the branch.  In the handler of the
    [ValidationError], [ve] is the error [validate] raised on [data]: the
    text of the log line, [f"...{ve}"], is computed before [logger.error]
    is called and outside any [try], so when it raises nothing is logged
    and the exception leaves the route; [str(ve)] of the next line is the
    same text again. *)
Definition github_webhook (rq : request) : M response :=
  if String.eqb (method rq) "POST" then
    let data := get_json_silent rq in
    match data with
    | PNone =>
        logger ERROR "请求体数据不是合法的JSON格式" ;;
        ret (generate_error_response 400 "请求体数据不是合法的JSON格式"
               "无法将请求体解析为JSON格式" (Some "INVALID_JSON"))
    | _ =>
        returned <-
          try_except
            (validate data push_event_schema ;; ret None)
            (fun ve =>
               match exn_type ve with
               | ValidationError =>
                   text <- lift (py_validation_text data) ;;
                   logger ERROR ("请求体数据不符合预期的GitHub Webhook格式: " ++
                                 text) ;;
                   ret (Some (generate_error_response 400
                                "请求体数据格式不符合要求" text
                                (Some "INVALID_SCHEMA")))
               | _ => raise ve
               end) ;;
        match returned with
        | Some resp => ret resp
        | None =>
            let event_type := X_GitHub_Event rq in
            logger INFO ("接收到的GitHub事件类型: " ++ fstr_header event_type) ;;
            returned <-
              (if header_is event_type "push" then
                 try_except
                   (handle_github_push_event data ;; ret None)
                   push_event_failed
               else if header_is event_type "pull_request" then
                 try_except
                   (handle_github_pull_request_event data ;; ret None)
                   (fun e =>
                      logger ERROR ("处理GitHub拉取请求事件时出错: " ++ exn_str e) ;;
                      ret (Some (generate_error_response 500
                                   "处理拉取请求事件失败" (exn_str e)
                                   (Some "PULL_REQUEST_ERROR"))))
               else
                 logger WARNING ("未知GitHub事件类型: " ++ fstr_header event_type) ;;
                 print ("未知GitHub事件类型: " ++ fstr_header event_type) ;;
                 ret None) ;;
            match returned with
            | Some resp => ret resp
            | None => ret (Response [("status", "success")] 200)
            end
        end
    end
  else ret (Response [("status", "method not allowed")] 405).
End Program.

(** ** The report as the specification words it *)

(** A commit as the specification's data model has it; an absent
    [modified], [added] or [removed] is the empty sequence. *)
Record Commit : Type := MkCommit {
  message : string;
  author_name : string;
  modified : list string;
  added : list string;
  removed : list string
}.

Fixpoint as_strings (xs : list pyval) : option (list string) :=
  match xs with
  | [] => Some []
  | PStr s :: rest =>
      match as_strings rest with
      | Some ss => Some (s :: ss)
      | None => None
      end
  | _ :: _ => None
  end.

Definition as_file_list (field : option pyval) : option (list string) :=
  match field with
  | None => Some []
  | Some (PList xs) => as_strings xs
  | Some _ => None
  end.

(** Reads a well-formed commit off a parsed JSON value: an object with a
    string [message], an object [author] with a string [name], and
    [modified], [added] and [removed] absent or arrays of strings.  Other
    members are ignored. *)
Definition as_commit (v : pyval) : option Commit :=
  match v with
  | PDict items =>
      match dict_get items "message", dict_get items "author" with
      | Some (PStr m), Some (PDict author) =>
          match dict_get author "name",
                as_file_list (dict_get items "modified"),
                as_file_list (dict_get items "added"),
                as_file_list (dict_get items "removed") with
          | Some (PStr n), Some ms, Some ads, Some rs => Some (MkCommit m n ms ads rs)
          | _, _, _, _ => None
          end
      | _, _ => None
      end
  | _ => None
  end.

Fixpoint as_commits (vs : list pyval) : option (list Commit) :=
  match vs with
  | [] => Some []
  | v :: rest =>
      match as_commit v, as_commits rest with
      | Some c, Some cs => Some (c :: cs)
      | _, _ => None
      end
  end.

(** The texts of a list, one after the other. *)
Definition join (texts : list string) : string := fold_right append "" texts.

(** The lines of one kind of change: each file behind its tag. *)
Definition tagged_lines (tag : string) (files : list string) : string :=
  join (map (fun file => "  " ++ tag ++ " " ++ file ++ nl) files).

(** The block of one commit: the waiting notice, the commit message, the
    author, and the fenced file list, modified, then added, then removed. *)
Definition report_block (c : Commit) : string :=
  "文档已更新～构建可能还需要一段时间，请耐心等待完成，预计1~5分钟:x11:" ++ nl ++
  nl ++
  "更新日志: " ++ message c ++ nl ++
  "更新作者: " ++ author_name c ++ nl ++
  "文件变化（该提交中修改、新增和删除的文件）:" ++ nl ++
  "```" ++ nl ++
  tagged_lines "[修改]" (modified c) ++
  tagged_lines "[新增]" (added c) ++
  tagged_lines "[删除]" (removed c) ++
  "```" ++ nl.

(** The report: one block per commit, in the order of the commits. *)
Definition report (cs : list Commit) : string := join (map report_block cs).

(** ** The push payload as the specification words it *)

(** [v.k] of a JSON document: the member [k] of an object, nothing of any
    other value. *)
Definition member (v : pyval) (k : string) : option pyval :=
  match v with
  | PDict items => dict_get items k
  | _ => None
  end.

Definition member_has_type (t : json_type) (field : option pyval) : bool :=
  match field with
  | Some x => has_type t x
  | None => false
  end.

(** [repository.name] and [ref] are present and strings, [commits] is
    present and an array. *)
Definition push_fields_present (v : pyval) : bool :=
  match member v "repository" with
  | Some r => member_has_type TString (member r "name")
  | None => false
  end
  && member_has_type TString (member v "ref")
  && member_has_type TArray (member v "commits").

(** ** Reading the outcome of a request *)

Definition error_code (r : response) : option string := body_get (body r) "error_code".

(** The route answered [code] with [error_code] as given. *)
Definition answers (out : result response * world) (code : Z)
    (ec : option string) : Prop :=
  exists r, fst out = Ok r /\ status_code r = code /\ error_code r = ec.

(** The route answered [200 {"status": "success"}]. *)
Definition succeeds (out : result response * world) : Prop :=
  fst out = Ok (Response [("status", "success")] 200).

(** The calls a request added to the world. *)
Definition made_calls (w : world) (out : result response * world)
    (cs : list call) : Prop :=
  calls (snd out) = (calls w ++ cs)%list.

(** Neither sink changed. *)
Definition sinks_untouched (w : world) (out : result response * world) : Prop :=
  misskey_notes (snd out) = misskey_notes w /\
  push_info_file (snd out) = push_info_file w.

Definition is_sink_call (c : call) : bool :=
  match c with
  | CallValidate _ => false
  | _ => true
  end.

(** ** A runtime and hosts to run the model on *)

Definition ascii_lower (c : ascii) : ascii :=
  let n := nat_of_ascii c in
  if (Nat.leb 65 n && Nat.leb n 90)%bool then ascii_of_nat (n + 32) else c.

Fixpoint str_map (f : ascii -> ascii) (s : string) : string :=
  match s with
  | EmptyString => EmptyString
  | String c s' => String (f c) (str_map f s')
  end.

(** A runtime for concrete runs: [None], booleans and integers print as
    in Python and [lower] folds the ASCII letters; the other texts are
    stand-ins. *)
Definition ascii_runtime : PyRuntime := {|
  py_str v :=
    match v with
    | PNone => "None"
    | PBool true => "True"
    | PBool false => "False"
    | PInt n => NilZero.string_of_int (Z.to_int n)
    | _ => "<object>"
    end;
  py_lower := str_map ascii_lower;
  py_fault_text f :=
    match f with
    | NotSubscriptable _ _ => "object is not subscriptable"
    | NotIterable _ => "object is not iterable"
    | NoLen _ => "object has no len()"
    | NoAttribute _ attr => "object has no attribute '" ++ attr ++ "'"
    | SchemaViolation _ => "instance does not match the schema"
    end;
  py_validation_text _ := Ok "instance does not match the schema"
|}.

(** How deep the arrays and objects of a value are nested. *)
Fixpoint nesting (v : pyval) : nat :=
  match v with
  | PList xs =>
      S ((fix deepest (xs : list pyval) : nat :=
            match xs with
            | [] => 0%nat
            | x :: rest => Nat.max (nesting x) (deepest rest)
            end) xs)
  | PDict items =>
      S ((fix deepest (items : list (string * pyval)) : nat :=
            match items with
            | [] => 0%nat
            | (_, x) :: rest => Nat.max (nesting x) (deepest rest)
            end) items)
  | _ => 0%nat
  end.

(** As [ascii_runtime], but the text of a validation error is computed
    only for an instance nested at most [limit] deep; on a deeper one the
    computation raises, as pretty-printing does when it runs into the
    recursion limit of the interpreter (the limit in force depends on the
    interpreter and on the call stack). *)
Definition shallow_runtime (limit : nat) : PyRuntime := {|
  py_str := py_str (PyRuntime:=ascii_runtime);
  py_lower := py_lower (PyRuntime:=ascii_runtime);
  py_fault_text := py_fault_text (PyRuntime:=ascii_runtime);
  py_validation_text v :=
    if Nat.leb (nesting v) limit then Ok "instance does not match the schema"
    else Raise (Exn OtherException "maximum recursion depth exceeded")
|}.

(** An array in an array in an array, [depth] times around an empty
    array. *)
Fixpoint nested (depth : nat) : pyval :=
  match depth with
  | O => PList []
  | S d => PList [nested d]
  end.

Definition empty_world : world := World [] [] [] [] "".

(** No environment variable set; every collaborator succeeds. *)
Definition willing_host : host :=
  Host (fun _ => None) (fun _ _ => None) (fun _ => None) (fun _ => None).

(** As [willing_host], but [api.notes_create] raises [e]. *)
Definition host_failing_post (e : exn) : host :=
  Host (fun _ => None) (fun _ _ => None) (fun _ => Some e) (fun _ => None).

Definition push_payload (commits : list pyval) : pyval :=
  PDict [ ("ref", PStr "refs/heads/main");
          ("repository", PDict [("name", PStr "docs")]);
          ("commits", PList commits) ].

Definition sample_commit : pyval :=
  PDict [ ("message", PStr "fix typo");
          ("author", PDict [("name", PStr "alice")]);
          ("modified", PList [PStr "README.md"]);
          ("added", PList [PStr "a.txt"; PStr "b.txt"]) ].

(** The route on the sample runtime, from the empty world. *)
Definition run (h : host) (rq : request) : result response * world :=
  github_webhook (H:=ascii_runtime) h rq empty_world.

Definition post (event : string) (body : option pyval) : request :=
  Request "POST" (Some event) body.

(** The body of a [pull_request] delivery, cut down to a few of its
    members: it has an [action], a [number], the [pull_request] and the
    [repository], and neither [ref] nor [commits]. *)
Definition pull_request_delivery : pyval :=
  PDict [ ("action", PStr "opened");
          ("number", PInt 1);
          ("pull_request", PDict [("title", PStr "Fix typo"); ("state", PStr "open")]);
          ("repository", PDict [("name", PStr "docs")]) ].

(** A commit with nothing but the members the formatter reads by
    subscript. *)
Definition bare_commit : pyval :=
  PDict [ ("message", PStr "init"); ("author", PDict [("name", PStr "bob")]) ].

Definition sample_Commit : Commit :=
  MkCommit "fix typo" "alice" ["README.md"] ["a.txt"; "b.txt"] [].

Definition bare_Commit : Commit := MkCommit "init" "bob" [] [] [].

(** A push of one [sample_commit] while [api.notes_create] raises [e]. *)
Definition run_failing_post (e : exn) : result response * world :=
  run (host_failing_post e) (post "push" (Some (push_payload [sample_commit]))).

(** A commit object with a [message] and no [author]. *)
Definition anonymous_commit : list (string * pyval) := [("message", PStr "wip")].

(** ** The error table *)

(** The status and error code the route gives an exception that leaves
    [handle_github_push_event], by the class of the exception. *)
Definition error_table (c : exn_class) : Z * string :=
  match c with
  | KeyError => (500, "KEY_MISSING")
  | ValueError => (400, "VALUE_ERROR")
  | ConnectionError => (500, "CONNECTION_ERROR")
  | PermissionError => (500, "PERMISSION_ERROR")
  | _ => (500, "GENERAL_ERROR")
  end.

(** The route answered as the table says for [e]. *)
Definition fails_with (out : result response * world) (e : exn) : Prop :=
  answers out (fst (error_table (exn_type e))) (Some (snd (error_table (exn_type e)))).

(** The exception [push_info_to_misskey] leaves with when
    [api.notes_create] raised [e]. *)
Definition post_failure `{PyRuntime} (e : exn) : exn :=
  if contains "network" (py_lower (exn_str e)) then
    Exn ConnectionError "与Misskey平台连接失败，请检查网络设置"
  else if contains "permission" (py_lower (exn_str e)) then
    Exn PermissionError "Misskey平台访问权限验证失败，请检查访问令牌是否正确"
  else e.

(** The arguments [push_info_to_misskey] gives the [Misskey] client. *)
Definition misskey_url (h : host) : string :=
  environ_get h "MISSKEY_URL" "填写你的misskey域名".

Definition access_token (h : host) : string :=
  environ_get h "MISSKEY_ACCESS_TOKEN" "填写misskey账号的ACCESS TOKEN".

(** ** What a computation adds to the world *)

(** The world [w] followed by what [d] holds: every part of the world is
    only ever appended to. *)
Definition world_app (w d : world) : world :=
  World (log w ++ log d) (stdout w ++ stdout d) (calls w ++ calls d)
        (misskey_notes w ++ misskey_notes d) (push_info_file w ++ push_info_file d).

(** From every world, [m] ends with the same result [r] and adds the same
    [d], and [Q] holds of them. *)
Definition adds {A : Type} (m : M A) (Q : result A -> world -> Prop) : Prop :=
  exists r d, (forall w, m w = (r, world_app w d)) /\ Q r d.

Definition only_log (level : log_level) (msg : string) : world :=
  World [(level, msg)] [] [] [] "".

Definition only_stdout (line : string) : world := World [] [line] [] [] "".

Definition only_call (c : call) : world := World [] [] [c] [] "".

(** ** The answers and effects of the route *)


Definition is_error_record (r : log_level * string) : bool :=
  match fst r with
  | ERROR => true
  | _ => false
  end.

(** A POST whose event header is ["push"]. *)
Definition is_push (rq : request) : bool :=
  String.eqb (method rq) "POST" && header_is (X_GitHub_Event rq) "push".

(** A POST whose body passes the schema and whose event header is neither
    ["push"] nor ["pull_request"]. *)
Definition is_unknown_event (rq : request) : bool :=
  String.eqb (method rq) "POST" &&
  is_valid push_event_schema (get_json_silent rq) &&
  negb (header_is (X_GitHub_Event rq) "push") &&
  negb (header_is (X_GitHub_Event rq) "pull_request").



Definition log_post (r : result response) (d : world) : Prop :=
  match r with
  | Ok resp =>
      existsb is_error_record (log d) = true <->
      body_get (body resp) "status" = Some "error"
  | Raise _ => log d = []
  end.

Definition stdout_post `{PyRuntime} (rq : request) (r : result response)
    (d : world) : Prop :=
  stdout d
  = if is_unknown_event rq
    then ["未知GitHub事件类型: " ++ fstr_header (X_GitHub_Event rq)]
    else [].

Definition calls_post (rq : request) (r : result response) (d : world) : Prop :=
  calls d = [] \/
  exists rest,
    calls d = CallValidate (get_json_silent rq) :: rest /\
    forallb is_sink_call rest = true /\
    (rest <> [] ->
     is_push rq = true /\
     is_valid push_event_schema (get_json_silent rq) = true).



(** ** Commits the formatter cannot read *)

Definition is_dict (v : pyval) : bool :=
  match v with
  | PDict _ => true
  | _ => false
  end.

(** What [for x in v] accepts: a list, a dict or a str. *)
Definition is_iterable (v : pyval) : bool :=
  match v with
  | PList _ | PDict _ | PStr _ => true
  | _ => false
  end.

(** [commit.get(k, [])] for a commit object. *)
Definition files_field (items : list (string * pyval)) (k : string) : pyval :=
  match dict_get items k with
  | Some v => v
  | None => PList []
  end.


(** The key a commit object lacks that the loop body asks for first. *)
Definition first_missing_key (items : list (string * pyval)) : string :=
  match dict_get items "message" with
  | None => "message"
  | Some _ =>
      match dict_get items "author" with
      | None => "author"
      | Some _ => "name"
      end
  end.

(** As [willing_host], but the [Misskey] constructor raises [e]. *)
Definition host_failing_client (e : exn) : host :=
  Host (fun _ => None) (fun _ _ => Some e) (fun _ => None) (fun _ => None).

(** ** The helpers that print a commit *)

Section Printing.
Context `{PyRuntime}.

Definition print_commit_author (commit : pyval) : M unit :=
  author <- lift (py_subscript commit "author") ;;
  name <- lift (py_subscript author "name") ;;
  print ("提交作者: " ++ fstr name).

(** [for file in files: print(f"<tag>{file}")]. *)
Fixpoint print_each (tag : string) (files : list pyval) : M unit :=
  match files with
  | [] => ret tt
  | file :: rest => print (tag ++ fstr file) ;; print_each tag rest
  end.

Definition print_file_changes (commit : pyval) : M unit :=
  modified_files <- lift (py_get commit "modified" (PList [])) ;;
  added_files <- lift (py_get commit "added" (PList [])) ;;
  removed_files <- lift (py_get commit "removed" (PList [])) ;;
  print "文件变化（该提交中修改、新增和删除的文件）:" ;;
  files <- lift (py_iter modified_files) ;;
  print_each "  [修改] " files ;;
  files <- lift (py_iter added_files) ;;
  print_each "  [新增] " files ;;
  files <- lift (py_iter removed_files) ;;
  print_each "  [删除] " files.
End Printing.

(** What the formatter's loops run through when a file list is given as a
    string (its characters) or as an object (its keys). *)
Definition as_iterated (field : option pyval) : option (list string) :=
  match field with
  | None => Some []
  | Some (PList xs) => as_strings xs
  | Some (PStr s) => Some (str_chars s)
  | Some (PDict items) => Some (dict_keys items)
  | Some _ => None
  end.

(** As [as_commit], with the file lists read as the loops read them. *)
Definition as_iterated_commit (v : pyval) : option Commit :=
  match v with
  | PDict items =>
      match dict_get items "message", dict_get items "author" with
      | Some (PStr m), Some (PDict author) =>
          match dict_get author "name",
                as_iterated (dict_get items "modified"),
                as_iterated (dict_get items "added"),
                as_iterated (dict_get items "removed") with
          | Some (PStr n), Some ms, Some ads, Some rs => Some (MkCommit m n ms ads rs)
          | _, _, _, _ => None
          end
      | _, _ => None
      end
  | _ => None
  end.

Fixpoint as_iterated_commits (vs : list pyval) : option (list Commit) :=
  match vs with
  | [] => Some []
  | v :: rest =>
      match as_iterated_commit v, as_iterated_commits rest with
      | Some c, Some cs => Some (c :: cs)
      | _, _ => None
      end
  end.

(** ** More sample inputs *)

Definition sample_items : list (string * pyval) :=
  [ ("ref", PStr "refs/heads/feature/login");
    ("repository", PDict [("name", PStr "docs")]) ].

Definition sample_commit_items : list (string * pyval) :=
  [ ("message", PStr "fix typo");
    ("author", PDict [("name", PStr "alice")]);
    ("modified", PList [PStr "README.md"]);
    ("added", PList [PStr "a.txt"; PStr "b.txt"]) ].

(** A commit object whose [added] is [null]. *)
Definition null_added_items : list (string * pyval) :=
  [ ("modified", PList [PStr "README.md"]); ("added", PNone) ].

(** A commit whose [modified] is a string and whose [removed] is an
    object. *)
Definition stringly_commit : pyval :=
  PDict [ ("message", PStr "m"); ("author", PDict [("name", PStr "n")]);
          ("modified", PStr "ab"); ("removed", PDict [("x", PInt 1)]) ].

(** * Properties *)

(** ** Text *)

Lemma str_app_assoc (a b c : string) : (a ++ b) ++ c = a ++ (b ++ c).
Proof.
  induction a as [|x a IH]; simpl.
  - reflexivity.
  - now rewrite IH.
Qed.

Lemma str_app_nil_r (a : string) : a ++ "" = a.
Proof.
  induction a as [|x a IH]; simpl.
  - reflexivity.
  - now rewrite IH.
Qed.

(** Brings both sides of an equation between texts to right-nested form. *)
Ltac str_normalize :=
  repeat first [rewrite !str_app_assoc | progress cbn [append]].

Lemma rbind_Ok {A : Type} (r : result A) : rbind r Ok = r.
Proof. now destruct r. Qed.

Lemma rbind_assoc {A B C : Type} (r : result A) (f : A -> result B)
    (g : B -> result C) :
  rbind (rbind r f) g = rbind r (fun a => rbind (f a) g).
Proof. now destruct r. Qed.

(** ** The formatter *)

Section Formatter.
Context `{PyRuntime}.

(** The text a loop over files adds does not depend on the text so far. *)
Lemma append_file_lines_acc (tag : string) (files : list pyval) (acc : string) :
  append_file_lines tag files acc = acc ++ append_file_lines tag files "".
Proof.
  unfold append_file_lines.
  revert acc.
  induction files as [|file files IH]; intro acc; simpl.
  - now rewrite str_app_nil_r.
  - rewrite IH, (IH (tag ++ fstr file ++ nl)).
    now rewrite str_app_assoc.
Qed.

(** Neither does the block of a commit. *)
Lemma append_commit_acc (acc : string) (commit : pyval) :
  append_commit acc commit = t <~ append_commit "" commit ;; Ok (acc ++ t).
Proof.
  unfold append_commit.
  destruct (py_subscript commit "message") as [message|e]; cbn [rbind]; [|reflexivity].
  destruct (py_subscript commit "author") as [author|e]; cbn [rbind]; [|reflexivity].
  destruct (py_subscript author "name") as [name|e]; cbn [rbind]; [|reflexivity].
  destruct (py_get commit "modified" (PList [])) as [ms|e]; cbn [rbind]; [|reflexivity].
  destruct (py_get commit "added" (PList [])) as [ads|e]; cbn [rbind]; [|reflexivity].
  destruct (py_get commit "removed" (PList [])) as [rs|e]; cbn [rbind]; [|reflexivity].
  destruct (py_iter ms) as [fm|e]; cbn [rbind]; [|reflexivity].
  destruct (py_iter ads) as [fa|e]; cbn [rbind]; [|reflexivity].
  destruct (py_iter rs) as [fr|e]; cbn [rbind]; [|reflexivity].
  f_equal.
  rewrite (append_file_lines_acc "  [删除] " fr).
  rewrite (append_file_lines_acc "  [新增] " fa).
  rewrite (append_file_lines_acc "  [修改] " fm).
  symmetry.
  rewrite (append_file_lines_acc "  [删除] " fr).
  rewrite (append_file_lines_acc "  [新增] " fa).
  rewrite (append_file_lines_acc "  [修改] " fm).
  cbn [append].
  now rewrite !str_app_assoc.
Qed.

Lemma for_each_commit_acc (commits : list pyval) (acc : string) :
  for_each_commit commits acc = t <~ for_each_commit commits "" ;; Ok (acc ++ t).
Proof.
  revert acc.
  induction commits as [|commit rest IH]; intro acc; simpl.
  - now rewrite str_app_nil_r.
  - rewrite append_commit_acc.
    destruct (append_commit "" commit) as [block|e]; [|reflexivity].
    cbn [rbind append].
    rewrite IH, (IH block).
    destruct (for_each_commit rest "") as [t|e]; [|reflexivity].
    cbn [rbind]. now rewrite str_app_assoc.
Qed.

Lemma for_each_commit_app (xs ys : list pyval) (acc : string) :
  for_each_commit (xs ++ ys) acc
  = a <~ for_each_commit xs acc ;; for_each_commit ys a.
Proof.
  revert acc.
  induction xs as [|x xs IH]; intro acc; simpl.
  - reflexivity.
  - destruct (append_commit acc x) as [acc'|e]; [|reflexivity].
    cbn [rbind]. apply IH.
Qed.

(** Up to the cap the formatter is the loop and leaves the world alone. *)
Lemma build_commit_info_text_within_cap (commits : list pyval) (w : world) :
  (length commits <= 100)%nat ->
  build_commit_info_text (PList commits) w = (for_each_commit commits "", w).
Proof.
  intro Hlen.
  unfold build_commit_info_text, bind, lift. cbn [py_len py_iter].
  destruct (Z.ltb_spec 100 (Z.of_nat (length commits))) as [Hgt|_]; [lia|].
  now destruct (for_each_commit commits "").
Qed.

(** Above the cap it raises before it reads any commit. *)
Lemma build_commit_info_text_over_cap (commits : list pyval) (w : world) :
  (100 < length commits)%nat ->
  build_commit_info_text (PList commits) w
  = (Raise (Exn ValueError "提交数量超过限制"),
     snd (logger ERROR "提交数量过多，可能存在异常" w)).
Proof.
  intro Hlen.
  unfold build_commit_info_text, bind, lift. cbn [py_len].
  destruct (Z.ltb_spec 100 (Z.of_nat (length commits))) as [_|Hle]; [|lia].
  reflexivity.
Qed.

Lemma append_file_lines_cons (tag : string) (file : pyval) (files : list pyval)
    (acc : string) :
  append_file_lines tag (file :: files) acc
  = append_file_lines tag files (acc ++ tag ++ fstr file ++ nl).
Proof. reflexivity. Qed.

(** A loop over an array of file names writes the tagged lines. *)
Lemma append_file_lines_strings (tag : string) (xs : list pyval) (ss : list string) :
  as_strings xs = Some ss ->
  append_file_lines ("  " ++ tag ++ " ") xs "" = tagged_lines tag ss.
Proof.
  revert ss.
  induction xs as [|x xs IH]; intros ss Hss.
  - injection Hss as <-. reflexivity.
  - destruct x; try discriminate. cbn [as_strings] in Hss.
    destruct (as_strings xs) as [ss'|]; [|discriminate].
    injection Hss as <-.
    rewrite append_file_lines_cons.
    rewrite append_file_lines_acc, (IH ss' eq_refl).
    unfold tagged_lines, join. cbn [map fold_right fstr].
    str_normalize. reflexivity.
Qed.

Lemma py_iter_file_list (items : list (string * pyval)) (k : string)
    (ss : list string) :
  as_file_list (dict_get items k) = Some ss ->
  exists xs, py_get (PDict items) k (PList []) = Ok (PList xs) /\
             as_strings xs = Some ss.
Proof.
  unfold py_get, as_file_list.
  destruct (dict_get items k) as [[]|]; try discriminate.
  - intro Hss. eauto.
  - intro Hss. exists []. split; [reflexivity|]. now injection Hss as <-.
Qed.

(** The block the loop body writes for a well-formed commit. *)
Lemma append_commit_well_formed (commit : pyval) (c : Commit) :
  as_commit commit = Some c ->
  append_commit "" commit = Ok (report_block c).
Proof.
  destruct commit as [| | | | | |items]; try discriminate.
  unfold as_commit.
  destruct (dict_get items "message") as [[| | | |m| |]|] eqn:Hm; try discriminate.
  destruct (dict_get items "author") as [[| | | | | |author]|] eqn:Ha; try discriminate.
  destruct (dict_get author "name") as [[| | | |n| |]|] eqn:Hn; try discriminate.
  destruct (as_file_list (dict_get items "modified")) as [ms|] eqn:Hms; [|discriminate].
  destruct (as_file_list (dict_get items "added")) as [ads|] eqn:Hads; [|discriminate].
  destruct (as_file_list (dict_get items "removed")) as [rs|] eqn:Hrs; [|discriminate].
  intro Hc. injection Hc as <-.
  destruct (py_iter_file_list _ _ _ Hms) as (xm & Gm & Sm).
  destruct (py_iter_file_list _ _ _ Hads) as (xa & Ga & Sa).
  destruct (py_iter_file_list _ _ _ Hrs) as (xr & Gr & Sr).
  unfold append_commit.
  cbn [py_subscript]. rewrite Hm. cbn [rbind]. rewrite Ha. cbn [rbind py_subscript].
  rewrite Hn. cbn [rbind]. rewrite Gm, Ga, Gr. cbn [rbind py_iter].
  f_equal.
  rewrite (append_file_lines_acc "  [删除] " xr).
  rewrite (append_file_lines_acc "  [新增] " xa).
  rewrite (append_file_lines_acc "  [修改] " xm).
  change "  [删除] " with ("  " ++ "[删除]" ++ " ").
  change "  [新增] " with ("  " ++ "[新增]" ++ " ").
  change "  [修改] " with ("  " ++ "[修改]" ++ " ").
  rewrite (append_file_lines_strings _ _ _ Sm).
  rewrite (append_file_lines_strings _ _ _ Sa).
  rewrite (append_file_lines_strings _ _ _ Sr).
  unfold report_block. cbn [message author_name modified added removed fstr].
  str_normalize. reflexivity.
Qed.

Lemma for_each_commit_well_formed (commits : list pyval) (cs : list Commit) :
  as_commits commits = Some cs ->
  for_each_commit commits "" = Ok (report cs).
Proof.
  revert cs.
  induction commits as [|commit rest IH]; intros cs Hcs.
  - injection Hcs as <-. reflexivity.
  - cbn [as_commits] in Hcs.
    destruct (as_commit commit) as [c|] eqn:Hc; [|discriminate].
    destruct (as_commits rest) as [cs'|]; [|discriminate].
    injection Hcs as <-.
    cbn [for_each_commit].
    rewrite (append_commit_well_formed _ _ Hc). cbn [rbind].
    rewrite for_each_commit_acc, (IH cs' eq_refl).
    reflexivity.
Qed.
End Formatter.

(** ** The schema *)

(** [push_event_schema] accepts what the data model asks of a push event. *)
Lemma is_valid_push_fields (v : pyval) :
  is_valid push_event_schema v = push_fields_present v.
Proof.
  destruct v as [| | | | | |items]; try reflexivity.
  unfold push_fields_present, member_has_type.
  cbn [is_valid push_event_schema has_type forallb andb member].
  unfold has_key.
  repeat
    match goal with
    | |- context [dict_get ?i ?k] =>
        let x := fresh "x" in
        destruct (dict_get i k) as [x|];
        [destruct x|];
        cbn [is_valid has_type forallb andb member];
        unfold has_key;
        try reflexivity
    end.
Qed.

(** What a payload that passes the schema holds. *)
Lemma valid_push_payload (v : pyval) :
  is_valid push_event_schema v = true ->
  exists items ritems name ref commits,
    v = PDict items /\
    dict_get items "repository" = Some (PDict ritems) /\
    dict_get ritems "name" = Some (PStr name) /\
    dict_get items "ref" = Some (PStr ref) /\
    dict_get items "commits" = Some (PList commits).
Proof.
  rewrite is_valid_push_fields.
  unfold push_fields_present, member_has_type.
  destruct v as [| | | | | |items]; try discriminate.
  cbn [member].
  destruct (dict_get items "repository") as [r|] eqn:Hrepo; [|discriminate].
  destruct r as [| | | | | |ritems]; try discriminate.
  cbn [member].
  destruct (dict_get ritems "name") as [[| | | |name| |]|] eqn:Hname;
    try discriminate.
  destruct (dict_get items "ref") as [[| | | |ref| |]|] eqn:Href;
    try discriminate.
  destruct (dict_get items "commits") as [[| | | | |commits|]|] eqn:Hcommits;
    try discriminate.
  intros _. now exists items, ritems, name, ref, commits.
Qed.

(** ** The route *)

Section Pipeline.
Context `{PyRuntime} (h : host).

(** The formatter's result does not depend on the world, and the
    formatter touches nothing but the log. *)
Lemma build_commit_info_text_frame (commits : list pyval) (w w0 : world) :
  fst (build_commit_info_text (PList commits) w)
  = fst (build_commit_info_text (PList commits) w0) /\
  calls (snd (build_commit_info_text (PList commits) w)) = calls w /\
  misskey_notes (snd (build_commit_info_text (PList commits) w)) = misskey_notes w /\
  push_info_file (snd (build_commit_info_text (PList commits) w)) = push_info_file w.
Proof.
  destruct (Nat.le_gt_cases (length commits) 100) as [Hle|Hgt].
  - rewrite !build_commit_info_text_within_cap by exact Hle. now repeat split.
  - rewrite !build_commit_info_text_over_cap by exact Hgt. now repeat split.
Qed.

(** The [except] chain answers by the table and touches nothing but the
    log. *)
Lemma push_event_failed_table (e : exn) (w : world) :
  exists resp w',
    push_event_failed e w = (Ok (Some resp), w') /\
    status_code resp = fst (error_table (exn_type e)) /\
    error_code resp = Some (snd (error_table (exn_type e))) /\
    calls w' = calls w /\
    misskey_notes w' = misskey_notes w /\
    push_info_file w' = push_info_file w.
Proof.
  unfold push_event_failed.
  destruct (exn_type e); do 2 eexists; (split; [reflexivity|]); now repeat split.
Qed.

(** A body that gives [None] is answered before anything is called. *)
Lemma webhook_invalid_json (rq : request) (w : world) :
  method rq = "POST" ->
  get_json_silent rq = PNone ->
  let out := github_webhook h rq w in
  answers out 400 (Some "INVALID_JSON") /\
  made_calls w out [] /\
  sinks_untouched w out.
Proof.
  intros Hmethod Hdata out. subst out.
  unfold github_webhook. rewrite Hmethod, Hdata.
  change (String.eqb "POST" "POST") with true. cbv iota.
  unfold answers, made_calls, sinks_untouched. cbn.
  rewrite app_nil_r. repeat split. eexists. now repeat split.
Qed.

(** A body that fails the schema gets as far as the text of the
    violation, after [validate] alone. *)
Lemma webhook_schema_violation (rq : request) (data : pyval) (w : world) :
  method rq = "POST" ->
  json_body rq = Some data ->
  data <> PNone ->
  is_valid push_event_schema data = false ->
  github_webhook h rq w
  = match py_validation_text data with
    | Ok text =>
        (Ok (generate_error_response 400 "请求体数据格式不符合要求" text
               (Some "INVALID_SCHEMA")),
         World (log w ++ [(ERROR, "请求体数据不符合预期的GitHub Webhook格式: " ++ text)])
               (stdout w) (calls w ++ [CallValidate data])
               (misskey_notes w) (push_info_file w))
    | Raise e =>
        (Raise e,
         World (log w) (stdout w) (calls w ++ [CallValidate data])
               (misskey_notes w) (push_info_file w))
    end.
Proof.
  intros Hmethod Hbody Hnone Hvalid.
  unfold github_webhook, get_json_silent. rewrite Hmethod, Hbody.
  change (String.eqb "POST" "POST") with true. cbv iota.
  unfold validate. rewrite Hvalid.
  destruct data; try contradiction;
    unfold bind, try_except, record_call, raise, lift, logger, ret;
    cbn [exn_type fst snd log stdout calls misskey_notes push_info_file];
    match goal with
    | |- context [py_validation_text ?v] => now destruct (py_validation_text v)
    end.
Qed.

(** When the text can be computed, the violation is logged and answered. *)
Lemma webhook_invalid_schema (rq : request) (data : pyval) (text : string)
    (w : world) :
  method rq = "POST" ->
  json_body rq = Some data ->
  data <> PNone ->
  is_valid push_event_schema data = false ->
  py_validation_text data = Ok text ->
  let out := github_webhook h rq w in
  answers out 400 (Some "INVALID_SCHEMA") /\
  log (snd out)
  = (log w ++ [(ERROR, ("请求体数据不符合预期的GitHub Webhook格式: " ++ text)%string)])%list /\
  made_calls w out [CallValidate data] /\
  sinks_untouched w out.
Proof.
  intros Hmethod Hbody Hnone Hvalid Htext out. subst out.
  rewrite (webhook_schema_violation rq data w Hmethod Hbody Hnone Hvalid), Htext.
  unfold answers, made_calls, sinks_untouched.
  cbn [fst snd log calls misskey_notes push_info_file].
  repeat split. eexists. now repeat split.
Qed.

(** A valid push reaches the formatter after one call to [validate]. *)
Lemma webhook_valid_push (rq : request) (data : pyval) (w : world) :
  method rq = "POST" ->
  header_is (X_GitHub_Event rq) "push" = true ->
  json_body rq = Some data ->
  is_valid push_event_schema data = true ->
  exists commits w1,
    github_webhook h rq w
    = (returned <-
         try_except
           ((all_info_text <- build_commit_info_text (PList commits) ;;
             push_info_to_misskey h all_info_text ;;
             save_info_to_file h all_info_text) ;;
            ret None)
           push_event_failed ;;
       match returned with
       | Some resp => ret resp
       | None => ret (Response [("status", "success")] 200)
       end) w1 /\
    member data "commits" = Some (PList commits) /\
    calls w1 = (calls w ++ [CallValidate data])%list /\
    misskey_notes w1 = misskey_notes w /\
    push_info_file w1 = push_info_file w.
Proof.
  intros Hmethod Hpush Hbody Hvalid.
  destruct (valid_push_payload _ Hvalid)
    as (items & ritems & name & ref & commits & -> & Hrepo & Hname & Href & Hcommits).
  exists commits. eexists. split.
  - unfold github_webhook, get_json_silent.
    rewrite Hmethod, Hbody, Hpush.
    change (String.eqb "POST" "POST") with true. cbv iota.
    unfold validate. rewrite Hvalid.
    unfold handle_github_push_event, bind, try_except, ret, lift, record_call, logger.
    cbn [py_get py_split]. rewrite Hrepo. cbn [py_get]. rewrite Hname, Href.
    cbn [py_split]. rewrite Hcommits.
    cbn [fst snd log stdout calls misskey_notes push_info_file].
    reflexivity.
  - cbn [member calls misskey_notes push_info_file]. now repeat split.
Qed.

(** The two sinks, by the outcome of each call. *)
Lemma sinks_phase (text : string) (w : world) :
  let m := (push_info_to_misskey h text ;; save_info_to_file h text) w in
  match misskey_connect h (misskey_url h) (access_token h) with
  | Some e =>
      fst m = Raise e /\
      calls (snd m)
      = (calls w ++ [CallMisskey (misskey_url h) (access_token h) false])%list /\
      misskey_notes (snd m) = misskey_notes w /\
      push_info_file (snd m) = push_info_file w
  | None =>
      match notes_create h text with
      | Some e =>
          fst m = Raise (post_failure e) /\
          calls (snd m)
          = (calls w ++ [CallMisskey (misskey_url h) (access_token h) true;
                         CallNotesCreate text false])%list /\
          misskey_notes (snd m) = misskey_notes w /\
          push_info_file (snd m) = push_info_file w
      | None =>
          match file_append h text with
          | Some e =>
              fst m = Raise e /\
              calls (snd m)
              = (calls w ++ [CallMisskey (misskey_url h) (access_token h) true;
                             CallNotesCreate text true;
                             CallFileAppend text false])%list /\
              misskey_notes (snd m) = (misskey_notes w ++ [text])%list /\
              push_info_file (snd m) = push_info_file w
          | None =>
              fst m = Ok tt /\
              calls (snd m)
              = (calls w ++ [CallMisskey (misskey_url h) (access_token h) true;
                             CallNotesCreate text true;
                             CallFileAppend text true])%list /\
              misskey_notes (snd m) = (misskey_notes w ++ [text])%list /\
              push_info_file (snd m) = push_info_file w ++ text
          end
      end
  end.
Proof.
  unfold push_info_to_misskey, save_info_to_file, Misskey, api_notes_create,
    open_append_write, post_failure.
  fold (misskey_url h) (access_token h).
  destruct (misskey_connect h (misskey_url h) (access_token h)) as [e|].
  { cbn. rewrite <- ?app_assoc. now repeat split. }
  destruct (notes_create h text) as [e|].
  { unfold bind, try_except, record_call, logger, raise.
    cbn [fst snd log stdout calls misskey_notes push_info_file].
    destruct (contains "network" (py_lower (exn_str e)));
      [|destruct (contains "permission" (py_lower (exn_str e)))];
      cbn [fst snd log stdout calls misskey_notes push_info_file];
      rewrite <- ?app_assoc; now repeat split. }
  destruct (file_append h text) as [e|].
  { cbn. rewrite <- ?app_assoc. now repeat split. }
  cbn. rewrite <- ?app_assoc. now repeat split.
Qed.

(** The [try] around the push handler and the [return] after it. *)
Lemma route_finish (m : M unit) (w : world) :
  let out :=
    (returned <- try_except (m ;; ret None) push_event_failed ;;
     match returned with
     | Some resp => ret resp
     | None => ret (Response [("status", "success")] 200)
     end) w in
  match fst (m w) with
  | Ok _ => succeeds out
  | Raise e => fails_with out e
  end /\
  calls (snd out) = calls (snd (m w)) /\
  misskey_notes (snd out) = misskey_notes (snd (m w)) /\
  push_info_file (snd out) = push_info_file (snd (m w)).
Proof.
  unfold bind, try_except, ret, succeeds, fails_with, answers.
  destruct (m w) as [[[]|e] w']; cbn [fst snd].
  - now repeat split.
  - destruct (push_event_failed_table e w')
      as (resp & w'' & -> & Hs & Hec & Hc & Hn & Hf).
    cbn [fst snd]. repeat split; try assumption.
    exists resp. now repeat split.
Qed.

(** The course of a valid push, by the outcome of each step. *)
Lemma push_pipeline (rq : request) (data : pyval) (w : world) :
  method rq = "POST" ->
  header_is (X_GitHub_Event rq) "push" = true ->
  json_body rq = Some data ->
  is_valid push_event_schema data = true ->
  let out := github_webhook h rq w in
  exists commits,
    member data "commits" = Some (PList commits) /\
    match fst (build_commit_info_text (PList commits) w) with
    | Raise e =>
        fails_with out e /\
        made_calls w out [CallValidate data] /\
        sinks_untouched w out
    | Ok text =>
        match misskey_connect h (misskey_url h) (access_token h) with
        | Some e =>
            fails_with out e /\
            made_calls w out
              [CallValidate data;
               CallMisskey (misskey_url h) (access_token h) false] /\
            sinks_untouched w out
        | None =>
            match notes_create h text with
            | Some e =>
                fails_with out (post_failure e) /\
                made_calls w out
                  [CallValidate data;
                   CallMisskey (misskey_url h) (access_token h) true;
                   CallNotesCreate text false] /\
                sinks_untouched w out
            | None =>
                match file_append h text with
                | Some e =>
                    fails_with out e /\
                    made_calls w out
                      [CallValidate data;
                       CallMisskey (misskey_url h) (access_token h) true;
                       CallNotesCreate text true;
                       CallFileAppend text false] /\
                    misskey_notes (snd out) = (misskey_notes w ++ [text])%list /\
                    push_info_file (snd out) = push_info_file w
                | None =>
                    succeeds out /\
                    made_calls w out
                      [CallValidate data;
                       CallMisskey (misskey_url h) (access_token h) true;
                       CallNotesCreate text true;
                       CallFileAppend text true] /\
                    misskey_notes (snd out) = (misskey_notes w ++ [text])%list /\
                    push_info_file (snd out) = push_info_file w ++ text
                end
            end
        end
    end.
Proof.
  intros Hmethod Hpush Hbody Hvalid out.
  destruct (webhook_valid_push rq data w Hmethod Hpush Hbody Hvalid)
    as (commits & w1 & Heq & Hmem & Hc1 & Hn1 & Hf1).
  exists commits. split; [exact Hmem|].
  destruct (build_commit_info_text_frame commits w1 w) as (Hr & Hc2 & Hn2 & Hf2).
  rewrite <- Hr. clear Hr.
  pose proof (route_finish
                (all_info_text <- build_commit_info_text (PList commits) ;;
                 push_info_to_misskey h all_info_text ;;
                 save_info_to_file h all_info_text) w1) as Hfin.
  cbv zeta in Hfin. rewrite <- Heq in Hfin. fold out in Hfin. clear Heq.
  assert (Hm : (all_info_text <- build_commit_info_text (PList commits) ;;
                push_info_to_misskey h all_info_text ;;
                save_info_to_file h all_info_text) w1
               = match build_commit_info_text (PList commits) w1 with
                 | (Ok text, w2) =>
                     (push_info_to_misskey h text ;; save_info_to_file h text) w2
                 | (Raise e, w2) => (Raise e, w2)
                 end) by reflexivity.
  rewrite Hm in Hfin. clear Hm.
  unfold made_calls, sinks_untouched.
  destruct (build_commit_info_text (PList commits) w1) as [[text|e] w2];
    cbn [fst snd] in Hc2, Hn2, Hf2 |- *.
  - pose proof (sinks_phase text w2) as Hsinks. cbv zeta in Hsinks.
    destruct Hfin as (Hans & Hc & Hn & Hf).
    rewrite Hc, Hn, Hf. clear Hc Hn Hf.
    destruct (misskey_connect h (misskey_url h) (access_token h)) as [e|];
      [|destruct (notes_create h text) as [e|];
        [|destruct (file_append h text) as [e|]]];
      destruct Hsinks as (Hres & -> & -> & ->);
      rewrite Hres in Hans;
      rewrite Hc2, Hc1, Hn2, Hn1, Hf2, Hf1, <- app_assoc;
      now repeat split.
  - cbn [fst snd] in Hfin. destruct Hfin as (Hans & -> & -> & ->).
    rewrite Hc2, Hc1, Hn2, Hn1, Hf2, Hf1. now repeat split.
Qed.
End Pipeline.

(** ** The claims about rejected and ignored requests *)

Section Requests.
Context `{PyRuntime} (h : host).

(** C3.  A POST whose body cannot be parsed as JSON is answered 400 with
    error code INVALID_JSON, whatever the event type, and [validate] is
    not called on it: the request adds no call at all, and neither sink
    changes. *)
Theorem unparsable_body_is_invalid_json (rq : request) (w : world) :
  method rq = "POST" ->
  json_body rq = None ->
  let out := github_webhook h rq w in
  answers out 400 (Some "INVALID_JSON") /\
  calls (snd out) = calls w /\
  sinks_untouched w out.
Proof.
  intros Hmethod Hbody out.
  assert (Hdata : get_json_silent rq = PNone)
    by (unfold get_json_silent; now rewrite Hbody).
  pose proof (webhook_invalid_json h rq w Hmethod Hdata) as Hw.
  cbv zeta in Hw. destruct Hw as (Hans & Hcalls & Hsinks).
  unfold made_calls in Hcalls. rewrite app_nil_r in Hcalls.
  exact (conj Hans (conj Hcalls Hsinks)).
Qed.

(** C4, amended.  A POST whose body parses to a JSON value other than
    [null] and lacks [repository], [repository.name], [ref] or [commits],
    or has a [repository.name] or [ref] that is not a string or [commits]
    that is not an array, and for which the text of the validation error can
    be computed, is answered 400 with error code INVALID_SCHEMA.  The error
    is logged with that text, [validate] is the only call made and neither
    sink changes. *)
Theorem missing_push_fields_is_invalid_schema (rq : request) (data : pyval)
    (text : string) (w : world) :
  method rq = "POST" ->
  json_body rq = Some data ->
  data <> PNone ->
  push_fields_present data = false ->
  py_validation_text data = Ok text ->
  let out := github_webhook h rq w in
  answers out 400 (Some "INVALID_SCHEMA") /\
  log (snd out)
  = (log w ++ [(ERROR, ("请求体数据不符合预期的GitHub Webhook格式: " ++ text)%string)])%list /\
  made_calls w out [CallValidate data] /\
  sinks_untouched w out.
Proof.
  intros Hmethod Hbody Hnone Hfields Htext.
  apply webhook_invalid_schema; try assumption.
  now rewrite is_valid_push_fields.
Qed.

(** C1.  The route runs the push schema on the body before it reads the
    event type, so a [pull_request] delivery, which has no [ref] and no
    [commits], is not answered 200: when the text of the validation error
    can be computed the answer is 400 with error code INVALID_SCHEMA, and
    otherwise the exception of that computation leaves the route.
    [handle_github_pull_request_event] is not reached: [validate] is the
    only call made, the log gets no record of the event, and neither sink
    changes. *)
Theorem pull_request_delivery_is_rejected (w : world) :
  let out := github_webhook h (post "pull_request" (Some pull_request_delivery)) w in
  ~ succeeds out /\
  match py_validation_text pull_request_delivery with
  | Ok text =>
      answers out 400 (Some "INVALID_SCHEMA") /\
      log (snd out)
      = (log w ++ [(ERROR, ("请求体数据不符合预期的GitHub Webhook格式: " ++ text)%string)])%list
  | Raise e => fst out = Raise e /\ log (snd out) = log w
  end /\
  made_calls w out [CallValidate pull_request_delivery] /\
  sinks_untouched w out.
Proof.
  intro out. subst out.
  assert (Hne : pull_request_delivery <> PNone) by discriminate.
  rewrite (webhook_schema_violation h
             (post "pull_request" (Some pull_request_delivery))
             pull_request_delivery w eq_refl eq_refl Hne eq_refl).
  unfold succeeds, answers, made_calls, sinks_untouched.
  destruct (py_validation_text pull_request_delivery) as [text|e];
    cbn [fst snd log calls misskey_notes push_info_file].
  - repeat split; try discriminate. eexists. now repeat split.
  - repeat split. discriminate.
Qed.
End Requests.

(** ** The claims about the formatter *)

Section FormatterClaims.
Context `{PyRuntime}.

Lemma as_commit_absent_fields (commit : pyval) (c : Commit) :
  as_commit commit = Some c ->
  (member commit "modified" = None -> modified c = []) /\
  (member commit "added" = None -> added c = []) /\
  (member commit "removed" = None -> removed c = []).
Proof.
  destruct commit as [| | | | | |items]; try discriminate.
  unfold as_commit. cbn [member].
  destruct (dict_get items "message") as [[| | | |m| |]|]; try discriminate.
  destruct (dict_get items "author") as [[| | | | | |author]|]; try discriminate.
  destruct (dict_get author "name") as [[| | | |n| |]|]; try discriminate.
  destruct (dict_get items "modified") as [x|];
    destruct (dict_get items "added") as [y|];
    destruct (dict_get items "removed") as [z|];
    cbn [as_file_list];
    repeat match goal with
           | |- context [match ?v with PList _ => _ | _ => _ end] =>
               destruct v; try discriminate
           | |- context [as_strings ?l] => destruct (as_strings l); try discriminate
           end;
    intro Hc; injection Hc as <-; cbn [modified added removed];
    repeat split; (reflexivity || discriminate).
Qed.

Lemma as_commits_each (commits : list pyval) (cs : list Commit) :
  as_commits commits = Some cs ->
  Forall2 (fun commit c => as_commit commit = Some c) commits cs.
Proof.
  revert cs.
  induction commits as [|commit rest IH]; intros cs Hcs.
  - injection Hcs as <-. constructor.
  - cbn [as_commits] in Hcs.
    destruct (as_commit commit) as [c|] eqn:Hc; [|discriminate].
    destruct (as_commits rest) as [cs'|]; [|discriminate].
    injection Hcs as <-. constructor; [exact Hc|]. now apply IH.
Qed.

(** C5.  On at most 100 well-formed commits the formatter returns the
    report: one block per commit, in the order of the commits, each block
    the waiting notice, the commit message, the author name and the fenced
    file list with the modified files first, then the added, then the
    removed, behind the tags [修改], [新增] and [删除].  A commit without
    [modified], [added] or [removed] gets no line of that kind.  The
    result is a function of the commits alone and the world is left as it
    was. *)
Theorem formatter_writes_report (commits : list pyval) (cs : list Commit)
    (w : world) :
  as_commits commits = Some cs ->
  (length commits <= 100)%nat ->
  build_commit_info_text (PList commits) w = (Ok (report cs), w) /\
  Forall2 (fun commit c =>
             as_commit commit = Some c /\
             (member commit "modified" = None -> modified c = []) /\
             (member commit "added" = None -> added c = []) /\
             (member commit "removed" = None -> removed c = []))
          commits cs.
Proof.
  intros Hcs Hlen. split.
  - rewrite build_commit_info_text_within_cap by exact Hlen.
    now rewrite (for_each_commit_well_formed _ _ Hcs).
  - apply as_commits_each in Hcs.
    induction Hcs as [|commit c rest cs' Hc _ IH]; constructor.
    + split; [exact Hc|]. now apply as_commit_absent_fields.
    + apply IH. cbn [length] in Hlen. lia.
Qed.

(** C9.  The formatter maps the empty list to the empty text and, for
    lists whose lengths add up to at most 100, the concatenation of two
    lists to the concatenation of their texts; when one of the lists makes
    the formatter raise, the concatenation raises the same exception, that
    of the first list first. *)
Theorem formatter_is_homomorphism (w : world) :
  build_commit_info_text (PList []) w = (Ok "", w) /\
  forall xs ys : list pyval,
    (length (xs ++ ys) <= 100)%nat ->
    build_commit_info_text (PList (xs ++ ys)) w
    = (a <~ fst (build_commit_info_text (PList xs) w) ;;
       b <~ fst (build_commit_info_text (PList ys) w) ;;
       Ok (a ++ b),
       w).
Proof.
  split; [reflexivity|].
  intros xs ys Hlen.
  rewrite length_app in Hlen.
  rewrite !build_commit_info_text_within_cap by (rewrite ?length_app; lia).
  cbn [fst]. f_equal.
  rewrite for_each_commit_app.
  destruct (for_each_commit xs "") as [a|e]; [|reflexivity].
  cbn [rbind]. apply for_each_commit_acc.
Qed.
End FormatterClaims.

(** ** The claims about a push *)

Section PushClaims.
Context `{PyRuntime} (h : host).

(** The pipeline at the commits the payload holds. *)
Lemma push_pipeline_at (rq : request) (data : pyval) (commits : list pyval)
    (w : world) :
  method rq = "POST" ->
  header_is (X_GitHub_Event rq) "push" = true ->
  json_body rq = Some data ->
  is_valid push_event_schema data = true ->
  member data "commits" = Some (PList commits) ->
  let out := github_webhook h rq w in
  match fst (build_commit_info_text (PList commits) w) with
  | Raise e =>
      fails_with out e /\ made_calls w out [CallValidate data] /\
      sinks_untouched w out
  | Ok text =>
      match misskey_connect h (misskey_url h) (access_token h) with
      | Some e =>
          fails_with out e /\
          made_calls w out
            [CallValidate data;
             CallMisskey (misskey_url h) (access_token h) false] /\
          sinks_untouched w out
      | None =>
          match notes_create h text with
          | Some e =>
              fails_with out (post_failure e) /\
              made_calls w out
                [CallValidate data;
                 CallMisskey (misskey_url h) (access_token h) true;
                 CallNotesCreate text false] /\
              sinks_untouched w out
          | None =>
              match file_append h text with
              | Some e =>
                  fails_with out e /\
                  made_calls w out
                    [CallValidate data;
                     CallMisskey (misskey_url h) (access_token h) true;
                     CallNotesCreate text true;
                     CallFileAppend text false] /\
                  misskey_notes (snd out) = (misskey_notes w ++ [text])%list /\
                  push_info_file (snd out) = push_info_file w
              | None =>
                  succeeds out /\
                  made_calls w out
                    [CallValidate data;
                     CallMisskey (misskey_url h) (access_token h) true;
                     CallNotesCreate text true;
                     CallFileAppend text true] /\
                  misskey_notes (snd out) = (misskey_notes w ++ [text])%list /\
                  push_info_file (snd out) = push_info_file w ++ text
              end
          end
      end
  end.
Proof.
  intros Hmethod Hpush Hbody Hvalid Hmem out.
  destruct (push_pipeline h rq data w Hmethod Hpush Hbody Hvalid)
    as (commits' & Hmem' & Hcase).
  rewrite Hmem in Hmem'. injection Hmem' as <-. exact Hcase.
Qed.

(** C2.  A valid push with exactly 100 commits passes the cap: the
    formatter runs the loop over all of them, and when they are well formed
    and the collaborators succeed the answer is 200 and both sinks receive
    the report: the report of all 100 commits is the one note that is
    posted and the text that is appended to the file.  A valid push with 101
    or more commits is answered 400 with error code VALUE_ERROR; the
    formatter raises without a text, [validate] is the only call made and
    neither sink changes. *)
Theorem commit_cap (rq : request) (data : pyval) (commits : list pyval)
    (w : world) :
  method rq = "POST" ->
  header_is (X_GitHub_Event rq) "push" = true ->
  json_body rq = Some data ->
  is_valid push_event_schema data = true ->
  member data "commits" = Some (PList commits) ->
  let out := github_webhook h rq w in
  (length commits = 100%nat ->
   build_commit_info_text (PList commits) w = (for_each_commit commits "", w) /\
   forall cs,
     as_commits commits = Some cs ->
     misskey_connect h (misskey_url h) (access_token h) = None ->
     notes_create h (report cs) = None ->
     file_append h (report cs) = None ->
     succeeds out /\
     made_calls w out
       [CallValidate data;
        CallMisskey (misskey_url h) (access_token h) true;
        CallNotesCreate (report cs) true;
        CallFileAppend (report cs) true] /\
     misskey_notes (snd out) = (misskey_notes w ++ [report cs])%list /\
     push_info_file (snd out) = push_info_file w ++ report cs) /\
  ((101 <= length commits)%nat ->
   answers out 400 (Some "VALUE_ERROR") /\
   fst (build_commit_info_text (PList commits) w)
   = Raise (Exn ValueError "提交数量超过限制") /\
   made_calls w out [CallValidate data] /\
   sinks_untouched w out).
Proof.
  intros Hmethod Hpush Hbody Hvalid Hmem out.
  pose proof (push_pipeline_at rq data commits w Hmethod Hpush Hbody Hvalid Hmem)
    as Hrun.
  cbv zeta in Hrun. fold out in Hrun.
  split.
  - intro Hlen.
    assert (Hcap : (length commits <= 100)%nat) by lia.
    split; [now apply build_commit_info_text_within_cap|].
    intros cs Hcs Hconnect Hpost Hfile.
    rewrite (build_commit_info_text_within_cap commits w Hcap) in Hrun.
    rewrite (for_each_commit_well_formed commits cs Hcs) in Hrun.
    cbn [fst] in Hrun. rewrite Hconnect, Hpost, Hfile in Hrun.
    exact Hrun.
  - intro Hlen.
    rewrite build_commit_info_text_over_cap in Hrun |- * by lia.
    cbn [fst] in Hrun |- *.
    destruct Hrun as (Hans & Hcalls & Hsinks).
    exact (conj Hans (conj eq_refl (conj Hcalls Hsinks))).
Qed.

(** C6.  A valid push runs the formatter, then the notification sink
    (the Misskey client, then [notes_create] with the text), then the
    persistence sink (the append of the same text), and stops at the first
    step that raises: when the formatter raises no sink is called, when the
    post raises nothing is appended, and the answer is 200 only when every
    step succeeded.  An append never occurs without a successful post of
    the same text before it. *)
Theorem push_steps_in_order (rq : request) (data : pyval)
    (commits : list pyval) (w : world) :
  method rq = "POST" ->
  header_is (X_GitHub_Event rq) "push" = true ->
  json_body rq = Some data ->
  is_valid push_event_schema data = true ->
  member data "commits" = Some (PList commits) ->
  let out := github_webhook h rq w in
  let client := CallMisskey (misskey_url h) (access_token h) in
  exists steps,
    made_calls w out (CallValidate data :: steps) /\
    match fst (build_commit_info_text (PList commits) w) with
    | Raise e => steps = [] /\ fails_with out e /\ sinks_untouched w out
    | Ok text =>
        match misskey_connect h (misskey_url h) (access_token h) with
        | Some e =>
            steps = [client false] /\ fails_with out e /\ sinks_untouched w out
        | None =>
            match notes_create h text with
            | Some e =>
                steps = [client true; CallNotesCreate text false] /\
                fails_with out (post_failure e) /\
                sinks_untouched w out
            | None =>
                misskey_notes (snd out) = (misskey_notes w ++ [text])%list /\
                match file_append h text with
                | Some e =>
                    steps = [client true; CallNotesCreate text true;
                             CallFileAppend text false] /\
                    fails_with out e /\
                    push_info_file (snd out) = push_info_file w
                | None =>
                    steps = [client true; CallNotesCreate text true;
                             CallFileAppend text true] /\
                    succeeds out /\
                    push_info_file (snd out) = push_info_file w ++ text
                end
            end
        end
    end /\
    (forall text ok, In (CallFileAppend text ok) steps ->
                     In (CallNotesCreate text true) steps) /\
    (misskey_notes (snd out) = misskey_notes w ->
     push_info_file (snd out) = push_info_file w).
Proof.
  intros Hmethod Hpush Hbody Hvalid Hmem out client.
  pose proof (push_pipeline_at rq data commits w Hmethod Hpush Hbody Hvalid Hmem)
    as Hrun.
  cbv zeta in Hrun. fold out in Hrun.
  assert (Hgrow : forall (l : list string) x, (l ++ [x])%list <> l).
  { intros l x Heq. apply (f_equal (@length string)) in Heq.
    rewrite length_app in Heq. cbn in Heq. lia. }
  destruct (fst (build_commit_info_text (PList commits) w)) as [text|e].
  2: { exists []. destruct Hrun as (Hans & Hcalls & Hsinks).
       repeat split; try assumption; try apply Hsinks.
       - intros text ok [].
       - intros _. apply Hsinks. }
  destruct (misskey_connect h (misskey_url h) (access_token h)) as [e|].
  { exists [client false]. destruct Hrun as (Hans & Hcalls & Hsinks).
    repeat split; try assumption; try apply Hsinks.
    - intros text' ok [Hin|[]]. discriminate.
    - intros _. apply Hsinks. }
  destruct (notes_create h text) as [e|].
  { exists [client true; CallNotesCreate text false].
    destruct Hrun as (Hans & Hcalls & Hsinks).
    repeat split; try assumption; try apply Hsinks.
    - intros text' ok [Hin|[Hin|[]]]; discriminate.
    - intros _. apply Hsinks. }
  destruct (file_append h text) as [e|].
  { exists [client true; CallNotesCreate text true; CallFileAppend text false].
    destruct Hrun as (Hans & Hcalls & Hnotes & Hfile).
    repeat split; try assumption.
    - intros text' ok [Hin|[Hin|[Hin|[]]]]; try discriminate.
      injection Hin as <- _. right. now left.
    - intros _. exact Hfile. }
  exists [client true; CallNotesCreate text true; CallFileAppend text true].
  destruct Hrun as (Hans & Hcalls & Hnotes & Hfile).
  repeat split; try assumption.
  - intros text' ok [Hin|[Hin|[Hin|[]]]]; try discriminate.
    injection Hin as <- _. right. now left.
  - intro Hsame. rewrite Hsame in Hnotes. symmetry in Hnotes.
    now apply Hgrow in Hnotes.
Qed.

(** C7, amended.  When [notes_create] raises during a valid push, a
    message that contains "network" in lower case is answered 500 with
    CONNECTION_ERROR, one that contains "permission" and not "network" is
    answered 500 with PERMISSION_ERROR, and any other exception is passed on
    as it is and answered by its class: for a class other than [KeyError]
    and [ValueError], 500 with CONNECTION_ERROR for a [ConnectionError],
    PERMISSION_ERROR for a [PermissionError] and GENERAL_ERROR for the
    rest.  In each case nothing is appended to the file. *)
Theorem post_failure_classified (rq : request) (data : pyval)
    (commits : list pyval) (text : string) (e : exn) (w : world) :
  method rq = "POST" ->
  header_is (X_GitHub_Event rq) "push" = true ->
  json_body rq = Some data ->
  is_valid push_event_schema data = true ->
  member data "commits" = Some (PList commits) ->
  fst (build_commit_info_text (PList commits) w) = Ok text ->
  misskey_connect h (misskey_url h) (access_token h) = None ->
  notes_create h text = Some e ->
  let out := github_webhook h rq w in
  let message := py_lower (exn_str e) in
  (contains "network" message = true ->
   answers out 500 (Some "CONNECTION_ERROR")) /\
  (contains "network" message = false ->
   contains "permission" message = true ->
   answers out 500 (Some "PERMISSION_ERROR")) /\
  (contains "network" message = false ->
   contains "permission" message = false ->
   exn_type e <> KeyError ->
   exn_type e <> ValueError ->
   answers out 500
     (Some match exn_type e with
           | ConnectionError => "CONNECTION_ERROR"
           | PermissionError => "PERMISSION_ERROR"
           | _ => "GENERAL_ERROR"
           end)) /\
  made_calls w out
    [CallValidate data;
     CallMisskey (misskey_url h) (access_token h) true;
     CallNotesCreate text false] /\
  sinks_untouched w out.
Proof.
  intros Hmethod Hpush Hbody Hvalid Hmem Htext Hconnect Hpost out message.
  pose proof (push_pipeline_at rq data commits w Hmethod Hpush Hbody Hvalid Hmem)
    as Hrun.
  cbv zeta in Hrun. fold out in Hrun.
  rewrite Htext, Hconnect, Hpost in Hrun.
  destruct Hrun as (Hans & Hcalls & Hsinks).
  unfold fails_with, post_failure in Hans. fold message in Hans.
  repeat split; try assumption; try apply Hsinks.
  - intro Hnet. now rewrite Hnet in Hans.
  - intros Hnet Hperm. now rewrite Hnet, Hperm in Hans.
  - intros Hnet Hperm Hkey Hvalue. rewrite Hnet, Hperm in Hans.
    destruct (exn_type e); try contradiction; exact Hans.
Qed.

(** A commit object without [message], without [author], or with an
    [author] object without [name], makes the loop body raise
    [KeyError]. *)
Lemma append_commit_missing_key (acc : string) (items : list (string * pyval)) :
  dict_get items "message" = None \/
  dict_get items "author" = None \/
  (exists a, dict_get items "author" = Some (PDict a) /\
             dict_get a "name" = None) ->
  exists k, append_commit acc (PDict items) = Raise (Exn KeyError (key_repr k)).
Proof.
  intro Hmissing. unfold append_commit. cbn [py_subscript].
  destruct (dict_get items "message") as [m|].
  - destruct Hmissing as [Hm|[Ha|(a & Ha & Hn)]]; [discriminate| |].
    + rewrite Ha. now exists "author".
    + rewrite Ha. cbn [rbind py_subscript]. rewrite Hn. now exists "name".
  - now exists "message".
Qed.

(** C8, amended.  A valid push of at most 100 commits, in which the
    commits before some commit are formatted without error and that commit
    is an object without [message], without [author], or with an [author]
    object without [name], is answered 500 with error code KEY_MISSING;
    [validate] is the only call made and neither sink changes. *)
Theorem missing_commit_key_is_key_missing (rq : request) (data : pyval)
    (before after : list pyval) (items : list (string * pyval))
    (text : string) (w : world) :
  method rq = "POST" ->
  header_is (X_GitHub_Event rq) "push" = true ->
  json_body rq = Some data ->
  is_valid push_event_schema data = true ->
  member data "commits" = Some (PList (before ++ PDict items :: after)) ->
  (length (before ++ PDict items :: after) <= 100)%nat ->
  fst (build_commit_info_text (PList before) w) = Ok text ->
  dict_get items "message" = None \/
  dict_get items "author" = None \/
  (exists a, dict_get items "author" = Some (PDict a) /\
             dict_get a "name" = None) ->
  let out := github_webhook h rq w in
  answers out 500 (Some "KEY_MISSING") /\
  made_calls w out [CallValidate data] /\
  sinks_untouched w out.
Proof.
  intros Hmethod Hpush Hbody Hvalid Hmem Hlen Hbefore Hmissing out.
  pose proof (push_pipeline_at rq data _ w Hmethod Hpush Hbody Hvalid Hmem)
    as Hrun.
  cbv zeta in Hrun. fold out in Hrun.
  rewrite build_commit_info_text_within_cap in Hrun by exact Hlen.
  rewrite length_app in Hlen.
  rewrite build_commit_info_text_within_cap in Hbefore by lia.
  cbn [fst] in Hrun, Hbefore.
  rewrite for_each_commit_app, Hbefore in Hrun.
  cbn [rbind for_each_commit] in Hrun.
  destruct (append_commit_missing_key text items Hmissing) as (k & Hk).
  rewrite Hk in Hrun. exact Hrun.
Qed.

(** C10.  A valid push whose [commits] is the empty array is formatted
    to the empty text; when the collaborators succeed, the empty text is
    posted to Misskey and appended to the file, and the answer is 200. *)
Theorem empty_push_reaches_both_sinks (rq : request) (data : pyval) (w : world) :
  method rq = "POST" ->
  header_is (X_GitHub_Event rq) "push" = true ->
  json_body rq = Some data ->
  is_valid push_event_schema data = true ->
  member data "commits" = Some (PList []) ->
  let out := github_webhook h rq w in
  build_commit_info_text (PList []) w = (Ok "", w) /\
  (misskey_connect h (misskey_url h) (access_token h) = None ->
   notes_create h "" = None ->
   file_append h "" = None ->
   succeeds out /\
   made_calls w out
     [CallValidate data;
      CallMisskey (misskey_url h) (access_token h) true;
      CallNotesCreate "" true;
      CallFileAppend "" true] /\
   misskey_notes (snd out) = (misskey_notes w ++ [""])%list /\
   push_info_file (snd out) = push_info_file w ++ "").
Proof.
  intros Hmethod Hpush Hbody Hvalid Hmem out.
  split; [reflexivity|].
  intros Hconnect Hpost Hfile.
  pose proof (push_pipeline_at rq data [] w Hmethod Hpush Hbody Hvalid Hmem)
    as Hrun.
  cbv zeta in Hrun. fold out in Hrun.
  cbn [build_commit_info_text fst] in Hrun.
  change (fst (build_commit_info_text (PList []) w)) with (@Ok string "") in Hrun.
  rewrite Hconnect, Hpost, Hfile in Hrun. exact Hrun.
Qed.
End PushClaims.

(** ** The claims at concrete requests *)

Lemma answers_unique (out : result response * world) (c c' : Z)
    (ec ec' : option string) :
  answers out c ec -> answers out c' ec' -> c = c' /\ ec = ec'.
Proof.
  intros (r & Hr & Hc & He) (r' & Hr' & Hc' & He').
  rewrite Hr in Hr'. injection Hr' as <-. split; congruence.
Qed.

Lemma answers_not_success (out : result response * world) (c : Z)
    (ec : option string) :
  answers out c ec -> c <> 200 -> ~ succeeds out.
Proof.
  intros (r & Hr & Hc & He) Hne Hok. unfold succeeds in Hok.
  rewrite Hr in Hok. injection Hok as ->. cbn in Hc. congruence.
Qed.

(** C3 at a push whose body is not JSON. *)
Lemma unparsable_body_is_invalid_json_witness :
  method (post "push" None) = "POST" /\
  json_body (post "push" None) = None /\
  answers (run willing_host (post "push" None)) 400 (Some "INVALID_JSON") /\
  calls (snd (run willing_host (post "push" None))) = [].
Proof.
  split; [reflexivity|split; [reflexivity|]].
  destruct (@unparsable_body_is_invalid_json ascii_runtime willing_host
              (post "push" None) empty_world eq_refl eq_refl)
    as (Hans & Hcalls & _).
  split; [exact Hans|exact Hcalls].
Defined.

(** C4 as stated fails at the body [null]: it is JSON and holds none of
    the fields, and the answer is 400 with INVALID_JSON, not
    INVALID_SCHEMA. *)
Lemma null_body_is_not_invalid_schema :
  json_body (post "push" (Some PNone)) = Some PNone /\
  push_fields_present PNone = false /\
  answers (run willing_host (post "push" (Some PNone))) 400 (Some "INVALID_JSON") /\
  ~ answers (run willing_host (post "push" (Some PNone))) 400 (Some "INVALID_SCHEMA").
Proof.
  assert (Hans : answers (run willing_host (post "push" (Some PNone))) 400
                   (Some "INVALID_JSON")).
  { eexists. split; [reflexivity|]. split; reflexivity. }
  split; [reflexivity|split; [reflexivity|split; [exact Hans|]]].
  intro Hschema. destruct (answers_unique _ _ _ _ _ Hans Hschema) as (_ & Hec).
  discriminate.
Qed.

(** C4, amended, at a push without [commits]. *)
Lemma missing_push_fields_is_invalid_schema_witness :
  method (post "push" (Some (PDict [("ref", PStr "refs/heads/main")]))) = "POST" /\
  PDict [("ref", PStr "refs/heads/main")] <> PNone /\
  push_fields_present (PDict [("ref", PStr "refs/heads/main")]) = false /\
  py_validation_text (PyRuntime:=ascii_runtime) (PDict [("ref", PStr "refs/heads/main")])
  = Ok "instance does not match the schema" /\
  answers (run willing_host
             (post "push" (Some (PDict [("ref", PStr "refs/heads/main")]))))
    400 (Some "INVALID_SCHEMA") /\
  log (snd (run willing_host
              (post "push" (Some (PDict [("ref", PStr "refs/heads/main")])))))
  = [(ERROR, "请求体数据不符合预期的GitHub Webhook格式: instance does not match the schema")].
Proof.
  assert (Hne : PDict [("ref", PStr "refs/heads/main")] <> PNone) by discriminate.
  split; [reflexivity|split; [exact Hne|split; [reflexivity|split; [reflexivity|]]]].
  destruct (@missing_push_fields_is_invalid_schema ascii_runtime willing_host
              (post "push" (Some (PDict [("ref", PStr "refs/heads/main")])))
              (PDict [("ref", PStr "refs/heads/main")])
              "instance does not match the schema" empty_world
              eq_refl eq_refl Hne eq_refl eq_refl) as (Hans & Hlog & _).
  split; [exact Hans|exact Hlog].
Defined.

(** C5 at a commit with [modified] and [added] followed by a commit with no
    file lists. *)
Lemma formatter_writes_report_witness :
  as_commits [sample_commit; bare_commit] = Some [sample_Commit; bare_Commit] /\
  (length [sample_commit; bare_commit] <= 100)%nat /\
  build_commit_info_text (H:=ascii_runtime) (PList [sample_commit; bare_commit])
    empty_world
  = (Ok (report [sample_Commit; bare_Commit]), empty_world).
Proof.
  assert (Hlen : (length [sample_commit; bare_commit] <= 100)%nat)
    by (cbn [length]; lia).
  split; [reflexivity|split; [exact Hlen|]].
  exact (proj1 (@formatter_writes_report ascii_runtime
                  [sample_commit; bare_commit] [sample_Commit; bare_Commit]
                  empty_world eq_refl Hlen)).
Defined.

(** C9 at two one-commit lists. *)
Lemma formatter_is_homomorphism_witness :
  (length ([sample_commit] ++ [bare_commit]) <= 100)%nat /\
  build_commit_info_text (H:=ascii_runtime) (PList ([sample_commit] ++ [bare_commit]))
    empty_world
  = (Ok (report [sample_Commit] ++ report [bare_Commit]), empty_world).
Proof.
  assert (Hlen : (length ([sample_commit] ++ [bare_commit]) <= 100)%nat)
    by (cbn [length app]; lia).
  split; [exact Hlen|].
  exact (proj2 (@formatter_is_homomorphism ascii_runtime empty_world)
           [sample_commit] [bare_commit] Hlen).
Defined.

(** C2 at a push of 100 commits, whose report reaches both sinks, and at
    a push of 101 commits. *)
Lemma commit_cap_witness :
  is_valid push_event_schema (push_payload (repeat sample_commit 100)) = true /\
  length (repeat sample_commit 100) = 100%nat /\
  succeeds (run willing_host
              (post "push" (Some (push_payload (repeat sample_commit 100))))) /\
  misskey_notes (snd (run willing_host
                        (post "push" (Some (push_payload (repeat sample_commit 100))))))
  = [report (repeat sample_Commit 100)] /\
  push_info_file (snd (run willing_host
                         (post "push" (Some (push_payload (repeat sample_commit 100))))))
  = report (repeat sample_Commit 100) /\
  (101 <= length (repeat sample_commit 101))%nat /\
  answers (run willing_host
             (post "push" (Some (push_payload (repeat sample_commit 101)))))
    400 (Some "VALUE_ERROR").
Proof.
  assert (Hover : (101 <= length (repeat sample_commit 101))%nat)
    by (rewrite repeat_length; lia).
  split; [reflexivity|split; [reflexivity|]].
  assert (Hat : succeeds (run willing_host
                            (post "push" (Some (push_payload (repeat sample_commit 100))))) /\
                misskey_notes (snd (run willing_host
                        (post "push" (Some (push_payload (repeat sample_commit 100))))))
                = [report (repeat sample_Commit 100)] /\
                push_info_file (snd (run willing_host
                         (post "push" (Some (push_payload (repeat sample_commit 100))))))
                = report (repeat sample_Commit 100)).
  { destruct (@commit_cap ascii_runtime willing_host
                (post "push" (Some (push_payload (repeat sample_commit 100))))
                (push_payload (repeat sample_commit 100))
                (repeat sample_commit 100) empty_world
                eq_refl eq_refl eq_refl eq_refl eq_refl) as (Hat & _).
    destruct (Hat eq_refl) as (_ & Hwell).
    destruct (Hwell (repeat sample_Commit 100) eq_refl eq_refl eq_refl eq_refl)
      as (Hok & _ & Hnotes & Hfile).
    exact (conj Hok (conj Hnotes Hfile)). }
  destruct Hat as (Hok & Hnotes & Hfile).
  split; [exact Hok|split; [exact Hnotes|split; [exact Hfile|split; [exact Hover|]]]].
  destruct (@commit_cap ascii_runtime willing_host
              (post "push" (Some (push_payload (repeat sample_commit 101))))
              (push_payload (repeat sample_commit 101))
              (repeat sample_commit 101) empty_world
              eq_refl eq_refl eq_refl eq_refl eq_refl) as (_ & Hbeyond).
  exact (proj1 (Hbeyond Hover)).
Defined.

(** C6 at a push of one commit with willing collaborators: the answer is
    200 and the file holds the report. *)
Lemma push_steps_in_order_witness :
  is_valid push_event_schema (push_payload [sample_commit]) = true /\
  member (push_payload [sample_commit]) "commits" = Some (PList [sample_commit]) /\
  succeeds (run willing_host (post "push" (Some (push_payload [sample_commit])))) /\
  push_info_file (snd (run willing_host
                         (post "push" (Some (push_payload [sample_commit])))))
  = report [sample_Commit].
Proof.
  split; [reflexivity|split; [reflexivity|]].
  destruct (@push_steps_in_order ascii_runtime willing_host
              (post "push" (Some (push_payload [sample_commit])))
              (push_payload [sample_commit]) [sample_commit] empty_world
              eq_refl eq_refl eq_refl eq_refl eq_refl)
    as (steps & _ & Hcase & _).
  destruct Hcase as (_ & _ & Hok & Hfile).
  split; [exact Hok|exact Hfile].
Defined.

(** C7 as stated fails: a [ConnectionError] whose message contains neither
    word is answered 500 with CONNECTION_ERROR, not GENERAL_ERROR. *)
Lemma connection_error_without_network_word :
  contains "network"
    (py_lower (PyRuntime:=ascii_runtime) "Connection reset by peer") = false /\
  contains "permission"
    (py_lower (PyRuntime:=ascii_runtime) "Connection reset by peer") = false /\
  answers (run_failing_post (Exn ConnectionError "Connection reset by peer"))
    500 (Some "CONNECTION_ERROR") /\
  ~ answers (run_failing_post (Exn ConnectionError "Connection reset by peer"))
      500 (Some "GENERAL_ERROR").
Proof.
  assert (Hans : answers
                   (run_failing_post (Exn ConnectionError "Connection reset by peer"))
                   500 (Some "CONNECTION_ERROR")).
  { eexists. split; [vm_compute; reflexivity|]. split; reflexivity. }
  split; [reflexivity|split; [reflexivity|split; [exact Hans|]]].
  intro Hgeneral. destruct (answers_unique _ _ _ _ _ Hans Hgeneral) as (_ & Hec).
  discriminate.
Qed.

(** The same path with a [ValueError]: the answer is 400 with
    VALUE_ERROR. *)
Example value_error_from_post :
  answers (run_failing_post (Exn ValueError "Expecting value: line 1 column 1 (char 0)"))
    400 (Some "VALUE_ERROR").
Proof. eexists. split; [vm_compute; reflexivity|]. split; reflexivity. Qed.

(** C7, amended, at a failure whose message names the network. *)
Lemma post_failure_classified_witness :
  notes_create (host_failing_post (Exn OtherException "Network is unreachable"))
    (report [sample_Commit])
  = Some (Exn OtherException "Network is unreachable") /\
  contains "network" (py_lower (PyRuntime:=ascii_runtime) "Network is unreachable")
  = true /\
  answers (run_failing_post (Exn OtherException "Network is unreachable"))
    500 (Some "CONNECTION_ERROR").
Proof.
  split; [reflexivity|split; [reflexivity|]].
  exact (proj1 (@post_failure_classified ascii_runtime
                  (host_failing_post (Exn OtherException "Network is unreachable"))
                  (post "push" (Some (push_payload [sample_commit])))
                  (push_payload [sample_commit]) [sample_commit]
                  (report [sample_Commit])
                  (Exn OtherException "Network is unreachable") empty_world
                  eq_refl eq_refl eq_refl eq_refl eq_refl eq_refl eq_refl eq_refl)
           eq_refl).
Defined.

(** C8 as stated fails: in a valid push of 101 commits every commit lacks
    [message], and the answer is 400 with VALUE_ERROR, not 500 with
    KEY_MISSING. *)
Lemma missing_key_beyond_cap_is_value_error :
  is_valid push_event_schema (push_payload (repeat (PDict []) 101)) = true /\
  Forall (fun commit => member commit "message" = None) (repeat (PDict []) 101) /\
  answers (run willing_host (post "push" (Some (push_payload (repeat (PDict []) 101)))))
    400 (Some "VALUE_ERROR") /\
  ~ answers (run willing_host
               (post "push" (Some (push_payload (repeat (PDict []) 101)))))
      500 (Some "KEY_MISSING").
Proof.
  assert (Hans : answers
                   (run willing_host
                      (post "push" (Some (push_payload (repeat (PDict []) 101)))))
                   400 (Some "VALUE_ERROR")).
  { eexists. split; [vm_compute; reflexivity|]. split; reflexivity. }
  split; [reflexivity|split; [|split; [exact Hans|]]].
  - apply Forall_forall. intros commit Hin.
    apply repeat_spec in Hin. now subst commit.
  - intro Hkey. destruct (answers_unique _ _ _ _ _ Hans Hkey) as (Hcode & _).
    discriminate.
Qed.

(** C8, amended, at a well-formed commit followed by one without
    [author]. *)
Lemma missing_commit_key_is_key_missing_witness :
  is_valid push_event_schema
    (push_payload ([sample_commit] ++ PDict anonymous_commit :: [])) = true /\
  (length ([sample_commit] ++ PDict anonymous_commit :: []) <= 100)%nat /\
  dict_get anonymous_commit "author" = None /\
  answers (run willing_host
             (post "push"
                (Some (push_payload ([sample_commit] ++ PDict anonymous_commit :: [])))))
    500 (Some "KEY_MISSING").
Proof.
  assert (Hlen : (length ([sample_commit] ++ PDict anonymous_commit :: []) <= 100)%nat)
    by (cbn [length app]; lia).
  split; [reflexivity|split; [exact Hlen|split; [reflexivity|]]].
  exact (proj1 (@missing_commit_key_is_key_missing ascii_runtime willing_host
                  (post "push"
                     (Some (push_payload
                              ([sample_commit] ++ PDict anonymous_commit :: []))))
                  (push_payload ([sample_commit] ++ PDict anonymous_commit :: []))
                  [sample_commit] [] anonymous_commit (report [sample_Commit])
                  empty_world
                  eq_refl eq_refl eq_refl eq_refl eq_refl Hlen eq_refl
                  (or_intror (or_introl eq_refl)))).
Defined.

(** C10 at a push without commits and willing collaborators. *)
Lemma empty_push_reaches_both_sinks_witness :
  is_valid push_event_schema (push_payload []) = true /\
  member (push_payload []) "commits" = Some (PList []) /\
  succeeds (run willing_host (post "push" (Some (push_payload [])))) /\
  misskey_notes (snd (run willing_host (post "push" (Some (push_payload [])))))
  = [""].
Proof.
  split; [reflexivity|split; [reflexivity|]].
  destruct (@empty_push_reaches_both_sinks ascii_runtime willing_host
              (post "push" (Some (push_payload []))) (push_payload []) empty_world
              eq_refl eq_refl eq_refl eq_refl eq_refl)
    as (_ & Hsinks).
  destruct (Hsinks eq_refl eq_refl eq_refl) as (Hok & _ & Hnotes & _).
  split; [exact Hok|exact Hnotes].
Defined.

(** * Further properties of the program *)

(** ** Computations as additions to the world *)

Lemma world_app_empty_r (w : world) : world_app w empty_world = w.
Proof.
  destruct w as [l o c n f]. unfold world_app. cbn.
  now rewrite !app_nil_r, str_app_nil_r.
Qed.

Lemma world_app_empty_l (d : world) : world_app empty_world d = d.
Proof. now destruct d. Qed.

Lemma world_app_assoc (w d1 d2 : world) :
  world_app (world_app w d1) d2 = world_app w (world_app d1 d2).
Proof.
  unfold world_app. cbn. now rewrite <- !app_assoc, str_app_assoc.
Qed.

Lemma adds_ret {A : Type} (a : A) (Q : result A -> world -> Prop) :
  Q (Ok a) empty_world -> adds (ret a) Q.
Proof.
  intro HQ. exists (Ok a), empty_world. split; [|exact HQ].
  intro w. unfold ret. now rewrite world_app_empty_r.
Qed.

Lemma adds_raise {A : Type} (e : exn) (Q : result A -> world -> Prop) :
  Q (Raise e) empty_world -> adds (raise e) Q.
Proof.
  intro HQ. exists (Raise e), empty_world. split; [|exact HQ].
  intro w. unfold raise. now rewrite world_app_empty_r.
Qed.

Lemma adds_lift {A : Type} (r : result A) (Q : result A -> world -> Prop) :
  Q r empty_world -> adds (lift r) Q.
Proof.
  intro HQ. exists r, empty_world. split; [|exact HQ].
  intro w. unfold lift. now rewrite world_app_empty_r.
Qed.

Lemma adds_logger (level : log_level) (msg : string)
    (Q : result unit -> world -> Prop) :
  Q (Ok tt) (only_log level msg) -> adds (logger level msg) Q.
Proof.
  intro HQ. exists (Ok tt), (only_log level msg). split; [|exact HQ].
  intro w. unfold logger, world_app. cbn.
  now rewrite !app_nil_r, str_app_nil_r.
Qed.

Lemma adds_print (line : string) (Q : result unit -> world -> Prop) :
  Q (Ok tt) (only_stdout line) -> adds (print line) Q.
Proof.
  intro HQ. exists (Ok tt), (only_stdout line). split; [|exact HQ].
  intro w. unfold print, world_app. cbn.
  now rewrite !app_nil_r, str_app_nil_r.
Qed.

Lemma adds_record_call (c : call) (Q : result unit -> world -> Prop) :
  Q (Ok tt) (only_call c) -> adds (record_call c) Q.
Proof.
  intro HQ. exists (Ok tt), (only_call c). split; [|exact HQ].
  intro w. unfold record_call, world_app. cbn.
  now rewrite !app_nil_r, str_app_nil_r.
Qed.

Lemma adds_bind {A B : Type} (m : M A) (k : A -> M B)
    (Q : result B -> world -> Prop) :
  adds m (fun r d =>
            match r with
            | Ok a => adds (k a) (fun r' d' => Q r' (world_app d d'))
            | Raise e => Q (Raise e) d
            end) ->
  adds (bind m k) Q.
Proof.
  intros (r & d & Hm & HQ).
  destruct r as [a|e].
  - destruct HQ as (r' & d' & Hk & HQ).
    exists r', (world_app d d'). split; [|exact HQ].
    intro w. unfold bind. now rewrite Hm, Hk, world_app_assoc.
  - exists (Raise e), d. split; [|exact HQ].
    intro w. unfold bind. now rewrite Hm.
Qed.

Lemma adds_try_except {A : Type} (m : M A) (handler : exn -> M A)
    (Q : result A -> world -> Prop) :
  adds m (fun r d =>
            match r with
            | Ok a => Q (Ok a) d
            | Raise e => adds (handler e) (fun r' d' => Q r' (world_app d d'))
            end) ->
  adds (try_except m handler) Q.
Proof.
  intros (r & d & Hm & HQ).
  destruct r as [a|e].
  - exists (Ok a), d. split; [|exact HQ].
    intro w. unfold try_except. now rewrite Hm.
  - destruct HQ as (r' & d' & Hh & HQ).
    exists r', (world_app d d'). split; [|exact HQ].
    intro w. unfold try_except. now rewrite Hm, Hh, world_app_assoc.
Qed.

Lemma adds_Misskey (h : host) (url token : string)
    (Q : result unit -> world -> Prop) :
  match misskey_connect h url token with
  | None => Q (Ok tt) (only_call (CallMisskey url token true))
  | Some e => Q (Raise e) (only_call (CallMisskey url token false))
  end ->
  adds (Misskey h url token) Q.
Proof.
  unfold Misskey. destruct (misskey_connect h url token) as [e|]; intro HQ.
  - apply adds_bind, adds_record_call. now apply adds_raise.
  - now apply adds_record_call.
Qed.

Lemma adds_api_notes_create (h : host) (text : string)
    (Q : result unit -> world -> Prop) :
  match notes_create h text with
  | None => Q (Ok tt) (World [] [] [CallNotesCreate text true] [text] "")
  | Some e => Q (Raise e) (only_call (CallNotesCreate text false))
  end ->
  adds (api_notes_create h text) Q.
Proof.
  unfold api_notes_create. destruct (notes_create h text) as [e|]; intro HQ.
  - apply adds_bind, adds_record_call. now apply adds_raise.
  - eexists _, _. split; [|exact HQ].
    intro w. unfold world_app. cbn. now rewrite !app_nil_r, str_app_nil_r.
Qed.

Lemma adds_open_append_write (h : host) (text : string)
    (Q : result unit -> world -> Prop) :
  match file_append h text with
  | None => Q (Ok tt) (World [] [] [CallFileAppend text true] [] text)
  | Some e => Q (Raise e) (only_call (CallFileAppend text false))
  end ->
  adds (open_append_write h text) Q.
Proof.
  unfold open_append_write. destruct (file_append h text) as [e|]; intro HQ.
  - apply adds_bind, adds_record_call. now apply adds_raise.
  - eexists _, _. split; [|exact HQ].
    intro w. unfold world_app. cbn. now rewrite !app_nil_r.
Qed.

(** The [except] chain adds one error record and answers by the table,
    with [str(e)] as the detail. *)
Lemma adds_push_event_failed `{PyRuntime} (e : exn)
    (Q : result (option response) -> world -> Prop) :
  (forall resp msg,
     status_code resp = fst (error_table (exn_type e)) ->
     error_code resp = Some (snd (error_table (exn_type e))) ->
     body_get (body resp) "status" = Some "error" ->
     body_get (body resp) "detail" = Some (exn_str e) ->
     Q (Ok (Some resp)) (only_log ERROR msg)) ->
  adds (push_event_failed e) Q.
Proof.
  intro HQ. unfold push_event_failed.
  destruct (exn_type e) eqn:Hclass;
    apply adds_bind, adds_logger, adds_ret;
    rewrite world_app_empty_r;
    apply HQ; rewrite ?Hclass; reflexivity.
Qed.

(** One step through the program text. *)
Ltac adds_step :=
  cbv beta iota zeta; cbn [exn_type exn_str];
  lazymatch goal with
  | |- adds (bind _ _) _ => apply adds_bind
  | |- adds (try_except _ _) _ => apply adds_try_except
  | |- adds (ret _) _ => apply adds_ret
  | |- adds (raise _) _ => apply adds_raise
  | |- adds (lift _) _ => apply adds_lift
  | |- adds (logger _ _) _ => apply adds_logger
  | |- adds (print _) _ => apply adds_print
  | |- adds (record_call _) _ => apply adds_record_call
  | |- adds (Misskey _ _ _) _ => apply adds_Misskey
  | |- adds (api_notes_create _ _) _ => apply adds_api_notes_create
  | |- adds (open_append_write _ _) _ => apply adds_open_append_write
  | |- adds (push_event_failed _) _ => apply adds_push_event_failed; intros
  | |- adds (github_webhook _ _) _ => unfold github_webhook
  | |- adds (validate _ _) _ => unfold validate
  | |- adds (handle_github_push_event _ _) _ => unfold handle_github_push_event
  | |- adds (handle_github_pull_request_event _) _ =>
      unfold handle_github_pull_request_event
  | |- adds (build_commit_info_text _) _ => unfold build_commit_info_text
  | |- adds (push_info_to_misskey _ _) _ => unfold push_info_to_misskey
  | |- adds (save_info_to_file _ _) _ => unfold save_info_to_file
  | |- adds (if ?b then _ else _) _ => destruct b eqn:?
  | |- adds (match ?x with _ => _ end) _ => destruct x eqn:?
  | |- match ?x with _ => _ end => destruct x eqn:?
  end.




(** Brings the tests made on the way to a leaf into the goal. *)
Ltac use_tests :=
  repeat match goal with
         | E : get_json_silent _ = _ |- _ => rewrite E
         | E : is_valid _ _ = _ |- _ => rewrite E
         | E : header_is _ _ = _ |- _ => rewrite E
         | E : String.eqb _ _ = _ |- _ => rewrite E
         end.

Section Route.
Context `{PyRuntime} (h : host).



(** Where the text of a validation error is computed only up to some
    depth, a push whose body is nested deeper gets no response: the
    exception leaves the route, with [validate] called and nothing
    logged. *)
Example deep_body_leaves_the_route :
  github_webhook (H:=shallow_runtime 3) willing_host
    (post "push" (Some (nested 5))) empty_world
  = (Raise (Exn OtherException "maximum recursion depth exceeded"),
     World [] [] [CallValidate (nested 5)] [] "").
Proof. reflexivity. Qed.

Lemma route_log (rq : request) : adds (github_webhook h rq) log_post.
Proof.
  repeat adds_step.
  all: unfold log_post; cbv beta iota; cbn [world_app].
  all: first
    [ match goal with
      | Hb : body_get (body ?r) "status" = Some "error" |- _ =>
          rewrite Hb; cbn; now split
      end
    | cbn; first [reflexivity|split; (reflexivity || discriminate)] ].
Qed.

Lemma route_stdout (rq : request) : adds (github_webhook h rq) (stdout_post rq).
Proof.
  repeat adds_step.
  all: unfold stdout_post, is_unknown_event; cbn [world_app].
  all: use_tests; cbn.
  all: reflexivity.
Qed.

Lemma route_calls (rq : request) : adds (github_webhook h rq) (calls_post rq).
Proof.
  repeat adds_step.
  all: unfold calls_post, is_push; cbn [world_app].
  all: use_tests; cbn.
  all: try (left; reflexivity).
  all: right; eexists; (split; [reflexivity|]); split; [reflexivity|].
  all: try (intros _; split; reflexivity).
  all: intro Hrest; now contradiction Hrest.
Qed.


(** X3.  The log only grows.  When the route returns a response, the
    request has added a record at level ERROR exactly when the body of the
    response has status ["error"]: every error answer is logged as an
    error, and neither a success nor the 405 answer is.  When an exception
    leaves the route, the request has added no record at all. *)
Theorem error_answers_are_logged (rq : request) (w : world) :
  exists added,
    log (snd (github_webhook h rq w)) = (log w ++ added)%list /\
    match fst (github_webhook h rq w) with
    | Ok resp =>
        existsb is_error_record added = true <->
        body_get (body resp) "status" = Some "error"
    | Raise _ => added = []
    end.
Proof.
  destruct (route_log rq) as (r & d & Hrun & Hlog).
  exists (log d). rewrite Hrun. split; [reflexivity|exact Hlog].
Qed.

(** X4.  The route prints to stdout only for a POST whose body passes the
    schema and whose event type is neither ["push"] nor ["pull_request"]:
    then it prints one line that names the event type ([None] when the header
    is absent); in every other case stdout is left as it was. *)
Theorem only_unknown_events_print (rq : request) (w : world) :
  stdout (snd (github_webhook h rq w))
  = (stdout w ++
     if is_unknown_event rq
     then [("未知GitHub事件类型: " ++ fstr_header (X_GitHub_Event rq))%string]
     else [])%list.
Proof.
  destruct (route_stdout rq) as (r & d & Hrun & Hout).
  rewrite Hrun. cbn [snd world_app stdout]. now rewrite Hout.
Qed.

(** X5.  The calls of a request: none, or one call of [validate] on the
    parsed body followed only by calls to the sinks; and a sink is called
    only for a POST with event type ["push"] whose body passes the
    schema. *)
Theorem sinks_need_a_valid_push (rq : request) (w : world) :
  exists cs,
    calls (snd (github_webhook h rq w)) = (calls w ++ cs)%list /\
    (cs = [] \/
     exists rest,
       cs = CallValidate (get_json_silent rq) :: rest /\
       forallb is_sink_call rest = true /\
       (rest <> [] ->
        is_push rq = true /\
        is_valid push_event_schema (get_json_silent rq) = true)).
Proof.
  destruct (route_calls rq) as (r & d & Hrun & Hcalls).
  exists (calls d). rewrite Hrun. split; [reflexivity|exact Hcalls].
Qed.

End Route.

(** ** The schema *)

(** X7.  [push_event_schema] accepts exactly the objects that have a
    [repository] object with a string [name], a string [ref] and an array
    [commits]: nothing is asked of the elements of [commits] or of any other
    member. *)
Theorem push_event_schema_accepts (v : pyval) :
  is_valid push_event_schema v = true <->
  exists items ritems name ref commits,
    v = PDict items /\
    dict_get items "repository" = Some (PDict ritems) /\
    dict_get ritems "name" = Some (PStr name) /\
    dict_get items "ref" = Some (PStr ref) /\
    dict_get items "commits" = Some (PList commits).
Proof.
  split; [apply valid_push_payload|].
  intros (items & ritems & name & ref & commits & -> & Hrepo & Hname & Href & Hc).
  rewrite is_valid_push_fields.
  unfold push_fields_present, member_has_type. cbn [member].
  rewrite Hrepo. cbn [member]. now rewrite Hname, Href, Hc.
Qed.

(** ** More about a push *)

Section PushDetails.
Context `{PyRuntime} (h : host).

(** The response to a valid push whose formatter raises. *)
Lemma formatter_failure_response (rq : request) (data : pyval)
    (commits : list pyval) (e : exn) (w : world) :
  method rq = "POST" ->
  header_is (X_GitHub_Event rq) "push" = true ->
  json_body rq = Some data ->
  is_valid push_event_schema data = true ->
  member data "commits" = Some (PList commits) ->
  fst (build_commit_info_text (PList commits) w) = Raise e ->
  exists resp,
    fst (github_webhook h rq w) = Ok resp /\
    status_code resp = fst (error_table (exn_type e)) /\
    error_code resp = Some (snd (error_table (exn_type e))) /\
    body_get (body resp) "detail" = Some (exn_str e).
Proof.
  intros Hmethod Hpush Hbody Hvalid Hmem Hbuild.
  destruct (webhook_valid_push h rq data w Hmethod Hpush Hbody Hvalid)
    as (commits' & w1 & Heq & Hmem' & _).
  rewrite Hmem in Hmem'. injection Hmem' as <-.
  destruct (build_commit_info_text_frame commits w1 w) as (Hr & _).
  rewrite Hbuild in Hr.
  rewrite Heq. unfold bind, try_except.
  destruct (build_commit_info_text (PList commits) w1) as [r w2].
  cbn [fst] in Hr. subst r.
  assert (Hadds : adds (push_event_failed e)
                    (fun r _ => exists resp,
                       r = Ok (Some resp) /\
                       status_code resp = fst (error_table (exn_type e)) /\
                       error_code resp = Some (snd (error_table (exn_type e))) /\
                       body_get (body resp) "detail" = Some (exn_str e))).
  { apply adds_push_event_failed. intros resp msg Hs He _ Hd. now exists resp. }
  destruct Hadds as (r & d & Hrun & resp & -> & Hs & He & Hd).
  rewrite Hrun. cbn [fst]. now exists resp.
Qed.



(** X9.  In a valid push of at most 100 commits, when the first commit
    that cannot be formatted is an object without [message], without
    [author], or with an [author] object without [name], the detail of the
    KEY_MISSING answer is the name of the key that the loop body asks for
    first and does not find, in single quotes: [message] before [author]
    before [name]. *)
Theorem key_missing_detail_names_the_key (rq : request) (data : pyval)
    (before after : list pyval) (items : list (string * pyval))
    (text : string) (w : world) :
  method rq = "POST" ->
  header_is (X_GitHub_Event rq) "push" = true ->
  json_body rq = Some data ->
  is_valid push_event_schema data = true ->
  member data "commits" = Some (PList (before ++ PDict items :: after)) ->
  (length (before ++ PDict items :: after) <= 100)%nat ->
  fst (build_commit_info_text (PList before) w) = Ok text ->
  dict_get items "message" = None \/
  dict_get items "author" = None \/
  (exists a, dict_get items "author" = Some (PDict a) /\
             dict_get a "name" = None) ->
  exists resp,
    fst (github_webhook h rq w) = Ok resp /\
    status_code resp = 500 /\
    error_code resp = Some "KEY_MISSING" /\
    body_get (body resp) "detail"
    = Some ("'" ++ first_missing_key items ++ "'").
Proof.
  intros Hmethod Hpush Hbody Hvalid Hmem Hlen Hbefore Hmissing.
  assert (Hraise : fst (build_commit_info_text
                          (PList (before ++ PDict items :: after)) w)
                   = Raise (Exn KeyError (key_repr (first_missing_key items)))).
  { rewrite build_commit_info_text_within_cap by exact Hlen.
    rewrite length_app in Hlen.
    rewrite build_commit_info_text_within_cap in Hbefore by lia.
    cbn [fst] in Hbefore |- *.
    rewrite for_each_commit_app, Hbefore. cbn [rbind for_each_commit].
    unfold append_commit, first_missing_key. cbn [py_subscript].
    destruct (dict_get items "message") as [m|]; [|reflexivity].
    cbn [rbind].
    destruct Hmissing as [Hm|[Ha|(a & Ha & Hn)]]; [discriminate| |].
    - now rewrite Ha.
    - rewrite Ha. cbn [rbind py_subscript]. now rewrite Hn. }
  destruct (formatter_failure_response rq data _ _ w
              Hmethod Hpush Hbody Hvalid Hmem Hraise)
    as (resp & Hresp & Hs & He & Hd).
  exists resp. now repeat split.
Qed.

(** X10.  When the [Misskey] constructor raises during a valid push whose
    text was formatted, the exception is answered by its class whatever its
    message says: the words "network" and "permission" are looked for only
    in a failure of [notes_create].  [notes_create] is not called and neither
    sink changes. *)
Theorem client_failure_keeps_its_class (rq : request) (data : pyval)
    (commits : list pyval) (text : string) (e : exn) (w : world) :
  method rq = "POST" ->
  header_is (X_GitHub_Event rq) "push" = true ->
  json_body rq = Some data ->
  is_valid push_event_schema data = true ->
  member data "commits" = Some (PList commits) ->
  fst (build_commit_info_text (PList commits) w) = Ok text ->
  misskey_connect h (misskey_url h) (access_token h) = Some e ->
  let out := github_webhook h rq w in
  answers out (fst (error_table (exn_type e)))
    (Some (snd (error_table (exn_type e)))) /\
  made_calls w out
    [CallValidate data; CallMisskey (misskey_url h) (access_token h) false] /\
  sinks_untouched w out.
Proof.
  intros Hmethod Hpush Hbody Hvalid Hmem Htext Hconnect out.
  pose proof (push_pipeline_at h rq data commits w Hmethod Hpush Hbody Hvalid Hmem)
    as Hrun.
  cbv zeta in Hrun. fold out in Hrun.
  rewrite Htext, Hconnect in Hrun. exact Hrun.
Qed.
End PushDetails.

(** ** The branch name *)

Lemma contains_char_cons (c a : ascii) (s : string) :
  contains (String c "") (String a s)
  = (Ascii.eqb c a || contains (String c "") s)%bool.
Proof.
  cbn [contains prefix].
  destruct (ascii_dec c a) as [->|Hne].
  - rewrite Ascii.eqb_refl. now destruct s.
  - apply Ascii.eqb_neq in Hne. now rewrite Hne.
Qed.

Lemma contains_char_app (c : ascii) (a b : string) :
  contains (String c "") (a ++ b)
  = (contains (String c "") a || contains (String c "") b)%bool.
Proof.
  induction a as [|x a IH].
  - cbn [append]. now destruct b.
  - cbn [append]. rewrite !contains_char_cons, IH. now rewrite orb_assoc.
Qed.

Lemma str_split_from_nonempty (sep : ascii) (s cur : string) :
  str_split_from sep cur s <> [].
Proof.
  revert cur. induction s as [|c s IH]; intro cur; cbn [str_split_from].
  - discriminate.
  - destruct (Ascii.eqb c sep); [discriminate|apply IH].
Qed.

(** The last piece of a split holds no separator and ends the string; what
    precedes it is empty or ends with the separator. *)
Lemma str_split_from_last (sep : ascii) (s cur : string) :
  contains (String sep "") cur = false ->
  exists prefix branch,
    cur ++ s = prefix ++ branch /\
    last (str_split_from sep cur s) "" = branch /\
    contains (String sep "") branch = false /\
    (prefix = "" \/ exists q, prefix = q ++ String sep "").
Proof.
  revert cur.
  induction s as [|c s IH]; intros cur Hcur.
  - exists "", cur. cbn [str_split_from last append].
    rewrite str_app_nil_r. repeat split; auto.
  - cbn [str_split_from].
    destruct (Ascii.eqb c sep) eqn:Hc.
    + apply Ascii.eqb_eq in Hc. subst c.
      destruct (IH "" eq_refl) as (p & b & Heq & Hlast & Hb & Hp).
      cbn [append] in Heq.
      exists (cur ++ String sep p), b.
      repeat split.
      * rewrite str_app_assoc. cbn [append]. now rewrite <- Heq.
      * pose proof (str_split_from_nonempty sep s "") as Hne.
        cbn [last]. destruct (str_split_from sep "" s); [contradiction|exact Hlast].
      * exact Hb.
      * right. destruct Hp as [->|(q & ->)].
        -- now exists cur.
        -- exists (cur ++ String sep q).
           rewrite str_app_assoc. reflexivity.
    + assert (Hcur' : contains (String sep "") (cur ++ String c "") = false).
      { rewrite contains_char_app, Hcur, contains_char_cons.
        rewrite Ascii.eqb_sym, Hc. reflexivity. }
      destruct (IH _ Hcur') as (p & b & Heq & Hlast & Hb & Hp).
      exists p, b. repeat split; try assumption.
      rewrite <- Heq, str_app_assoc. reflexivity.
Qed.

Section Handle.
Context `{PyRuntime} (h : host).

(** X11.  For a payload with a [repository] name and a string [ref],
    [handle_github_push_event] first logs the repository name and the branch
    name, and the branch name is what follows the last "/" of [ref]: it holds
    no "/", and [ref] is the branch name behind a prefix that is empty or
    ends with "/". *)
Theorem push_log_names_the_branch (items ritems : list (string * pyval))
    (name ref : string) (w : world) :
  dict_get items "repository" = Some (PDict ritems) ->
  dict_get ritems "name" = Some (PStr name) ->
  dict_get items "ref" = Some (PStr ref) ->
  exists prefix branch later,
    ref = prefix ++ branch /\
    contains "/" branch = false /\
    (prefix = "" \/ exists q, prefix = q ++ "/") /\
    log (snd (handle_github_push_event h (PDict items) w))
    = (log w ++
       (INFO, ("处理GitHub推送事件，仓库: " ++ name ++ "，分支: " ++ branch)%string)
       :: later)%list.
Proof.
  intros Hrepo Hname Href.
  destruct (str_split_from_last "/" ref "" eq_refl)
    as (p & b & Heq & Hlast & Hb & Hp).
  cbn [append] in Heq. fold (str_split "/" ref) in Hlast.
  exists p, b.
  assert (Hadds : adds (handle_github_push_event h (PDict items))
                    (fun _ d =>
                       exists later,
                         log d
                         = (INFO, "处理GitHub推送事件，仓库: " ++ name ++
                                  "，分支: " ++ b) :: later)).
  { unfold handle_github_push_event. cbn [py_get]. rewrite Hrepo, Href.
    repeat first [ progress (cbn [py_get py_split]; rewrite ?Hname, ?Hlast)
                 | adds_step ].
    all: cbn [world_app only_log log app fstr empty_world].
    all: eexists; reflexivity. }
  destruct Hadds as (r & d & Hrun & later & Hlog).
  exists later. rewrite Hrun. cbn [snd world_app log]. rewrite Hlog.
  now repeat split.
Qed.

(** X12.  Called on a value whose [ref] is absent or not a string,
    [handle_github_push_event] raises [AttributeError] before it logs,
    formats or calls anything: the world is left as it was. *)
Theorem handle_needs_a_string_ref (data : pyval) (w : world) :
  (forall r, member data "ref" <> Some (PStr r)) ->
  exists msg,
    handle_github_push_event h data w = (Raise (Exn AttributeError msg), w).
Proof.
  intro Href. unfold handle_github_push_event, bind, lift.
  destruct data as [| | | | | |items]; try (eexists; reflexivity).
  cbn [member] in Href. cbn [py_get].
  destruct (dict_get items "repository") as [repository|].
  - destruct repository; try (eexists; reflexivity).
    cbn [py_get].
    destruct (dict_get items0 "name");
      (destruct (dict_get items "ref") as [ref|];
       [destruct ref; try (eexists; reflexivity); now contradiction (Href s)
       |eexists; reflexivity]).
  - cbn [py_get dict_get].
    destruct (dict_get items "ref") as [ref|];
      [destruct ref; try (eexists; reflexivity); now contradiction (Href s)
      |eexists; reflexivity].
Qed.

Lemma dict_get_app_fresh (items : list (string * pyval)) (k k' : string)
    (v : pyval) :
  dict_get (items ++ [(k, v)]) k'
  = match dict_get items k' with
    | Some x => Some x
    | None => if String.eqb k k' then Some v else None
    end.
Proof.
  induction items as [|[k0 v0] items IH]; cbn [app dict_get].
  - reflexivity.
  - destruct (String.eqb k0 k'); [reflexivity|exact IH].
Qed.

(** X13.  [handle_github_push_event] reads an absent [commits] as the
    empty list: on an object without [commits] it does exactly what it does
    on the same object with [commits] set to the empty array. *)
Theorem handle_defaults_commits_to_empty (items : list (string * pyval))
    (w : world) :
  dict_get items "commits" = None ->
  handle_github_push_event h (PDict items) w
  = handle_github_push_event h (PDict (items ++ [("commits", PList [])])) w.
Proof.
  intro Hcommits. unfold handle_github_push_event, bind, lift.
  cbn [py_get]. rewrite !dict_get_app_fresh, Hcommits.
  change (String.eqb "commits" "repository") with false.
  change (String.eqb "commits" "ref") with false.
  change (String.eqb "commits" "commits") with true.
  destruct (dict_get items "repository") as [repository|];
    destruct (dict_get items "ref") as [ref|]; reflexivity.
Qed.
End Handle.

(** ** The helpers that print a commit *)

Lemma join_app (xs ys : list string) : join (xs ++ ys) = join xs ++ join ys.
Proof.
  unfold join. induction xs as [|x xs IH]; cbn [app fold_right].
  - reflexivity.
  - now rewrite IH, str_app_assoc.
Qed.

Lemma join_tagged_lines (tag : string) (files : list string) :
  join (map (fun line => line ++ nl) (map (append ("  " ++ tag ++ " ")) files))
  = tagged_lines tag files.
Proof.
  unfold tagged_lines. rewrite map_map. f_equal.
  apply map_ext. intro file. str_normalize. reflexivity.
Qed.

Section PrintingFacts.
Context `{PyRuntime}.

Lemma adds_print_each (tag : string) (xs : list pyval) (ss : list string)
    (Q : result unit -> world -> Prop) :
  as_strings xs = Some ss ->
  Q (Ok tt) (World [] (map (append tag) ss) [] [] "") ->
  adds (print_each tag xs) Q.
Proof.
  revert ss Q.
  induction xs as [|x xs IH]; intros ss Q Hss HQ.
  - injection Hss as <-. now apply adds_ret.
  - destruct x; try discriminate. cbn [as_strings] in Hss.
    destruct (as_strings xs) as [ss'|]; [|discriminate].
    injection Hss as <-.
    cbn [print_each fstr]. apply adds_bind, adds_print.
    now apply (IH ss').
Qed.

(** X14.  For a commit object whose [modified], [added] and [removed] are
    absent or arrays of strings, [print_file_changes] prints the heading and
    then one line per file, the modified files first, then the added, then
    the removed, each behind its tag, and changes nothing else.  These are
    the lines of the report: the tagged lines of the specification, and, when
    the commit has a [message] and an [author] with a [name], what
    [build_commit_info_text] writes for the commit is the notice, the
    message, the author, the printed heading, and the printed lines between
    the fences, each followed by a newline. *)
Theorem print_file_changes_lines (items : list (string * pyval))
    (ms ads rs : list string) (w : world) :
  as_file_list (dict_get items "modified") = Some ms ->
  as_file_list (dict_get items "added") = Some ads ->
  as_file_list (dict_get items "removed") = Some rs ->
  let lines := (map (append "  [修改] ") ms ++ map (append "  [新增] ") ads ++
                map (append "  [删除] ") rs)%list in
  print_file_changes (PDict items) w
  = (Ok tt,
     world_app w
       (World [] ("文件变化（该提交中修改、新增和删除的文件）:" :: lines) [] [] "")) /\
  join (map (fun line => line ++ nl) lines)
  = tagged_lines "[修改]" ms ++ tagged_lines "[新增]" ads ++ tagged_lines "[删除]" rs /\
  (forall m author n,
     dict_get items "message" = Some m ->
     dict_get items "author" = Some (PDict author) ->
     dict_get author "name" = Some n ->
     build_commit_info_text (PList [PDict items]) w
     = (Ok ("文档已更新～构建可能还需要一段时间，请耐心等待完成，预计1~5分钟:x11:" ++ nl ++
            nl ++
            "更新日志: " ++ fstr m ++ nl ++
            "更新作者: " ++ fstr n ++ nl ++
            "文件变化（该提交中修改、新增和删除的文件）:" ++ nl ++
            "```" ++ nl ++
            join (map (fun line => line ++ nl) lines) ++
            "```" ++ nl), w)).
Proof.
  intros Hms Hads Hrs lines.
  assert (Hlines : join (map (fun line => line ++ nl) lines)
                   = tagged_lines "[修改]" ms ++ tagged_lines "[新增]" ads ++
                     tagged_lines "[删除]" rs).
  { subst lines. rewrite !map_app, !join_app.
    change "  [修改] " with ("  " ++ "[修改]" ++ " ").
    change "  [新增] " with ("  " ++ "[新增]" ++ " ").
    change "  [删除] " with ("  " ++ "[删除]" ++ " ").
    now rewrite !join_tagged_lines. }
  split; [|split; [exact Hlines|]].
  2: { intros m author n Hm Ha Hn.
       destruct (py_iter_file_list _ _ _ Hms) as (xm & Gm & Sm).
       destruct (py_iter_file_list _ _ _ Hads) as (xa & Ga & Sa).
       destruct (py_iter_file_list _ _ _ Hrs) as (xr & Gr & Sr).
       rewrite build_commit_info_text_within_cap by (cbn [length]; lia).
       rewrite Hlines. f_equal.
       cbn [for_each_commit]. unfold append_commit.
       cbn [py_subscript]. rewrite Hm. cbn [rbind]. rewrite Ha.
       cbn [rbind py_subscript]. rewrite Hn. cbn [rbind].
       rewrite Gm, Ga, Gr. cbn [rbind py_iter]. f_equal.
       rewrite (append_file_lines_acc "  [删除] " xr).
       rewrite (append_file_lines_acc "  [新增] " xa).
       rewrite (append_file_lines_acc "  [修改] " xm).
       change "  [删除] " with ("  " ++ "[删除]" ++ " ").
       change "  [新增] " with ("  " ++ "[新增]" ++ " ").
       change "  [修改] " with ("  " ++ "[修改]" ++ " ").
       rewrite (append_file_lines_strings _ _ _ Sm).
       rewrite (append_file_lines_strings _ _ _ Sa).
       rewrite (append_file_lines_strings _ _ _ Sr).
       str_normalize. reflexivity. }
  - destruct (py_iter_file_list _ _ _ Hms) as (xm & Gm & Sm).
    destruct (py_iter_file_list _ _ _ Hads) as (xa & Ga & Sa).
    destruct (py_iter_file_list _ _ _ Hrs) as (xr & Gr & Sr).
    assert (Hadds : adds (print_file_changes (PDict items))
                      (fun r d =>
                         r = Ok tt /\
                         d = World [] ("文件变化（该提交中修改、新增和删除的文件）:" :: lines)
                               [] [] "")).
    { unfold print_file_changes. rewrite Gm, Ga, Gr.
      repeat first [ eapply adds_print_each; [eassumption|]
                   | progress cbn [py_iter]
                   | adds_step ].
      split; reflexivity. }
    destruct Hadds as (r & d & Hrun & -> & ->). apply Hrun.
Qed.

(** X15.  [print_file_changes] does not take back what it printed: when
    [modified] is absent or an array of strings and [added] cannot be
    iterated, the heading and the lines of the modified files are on stdout
    when the [TypeError] is raised. *)
Theorem print_file_changes_keeps_partial_output (items : list (string * pyval))
    (ms : list string) (w : world) :
  as_file_list (dict_get items "modified") = Some ms ->
  is_iterable (files_field items "added") = false ->
  exists msg,
    print_file_changes (PDict items) w
    = (Raise (Exn TypeError msg),
       world_app w
         (World [] ("文件变化（该提交中修改、新增和删除的文件）:"
                    :: map (append "  [修改] ") ms) [] [] "")).
Proof.
  intros Hms Hadded.
  destruct (py_iter_file_list _ _ _ Hms) as (xm & Gm & Sm).
  assert (Hadds : adds (print_file_changes (PDict items))
                    (fun r d =>
                       (exists msg, r = Raise (Exn TypeError msg)) /\
                       d = World [] ("文件变化（该提交中修改、新增和删除的文件）:"
                                     :: map (append "  [修改] ") ms) [] [] "")).
  { unfold print_file_changes. rewrite Gm.
    unfold files_field in Hadded. cbn [py_get].
    destruct (dict_get items "added") as [added|]; [|discriminate].
    destruct (dict_get items "removed") as [removed|];
      destruct added; try discriminate;
      repeat first [ eapply adds_print_each; [eassumption|]
                   | progress cbn [py_iter]
                   | adds_step ];
      unfold world_app, only_stdout, empty_world;
      cbn [log stdout calls misskey_notes push_info_file app];
      rewrite ?app_nil_r;
      (split; [eexists; reflexivity|reflexivity]). }
  destruct Hadds as (r & d & Hrun & (msg & ->) & ->).
  exists msg. apply Hrun.
Qed.

(** X16.  [print_commit_author] prints one line with the author's name
    when the commit has an [author] with a [name]; when the commit has no
    [author], or the author no [name], it raises and prints nothing. *)
Theorem print_commit_author_prints_or_raises (commit : pyval) (w : world) :
  (forall author name,
     member commit "author" = Some author ->
     member author "name" = Some name ->
     print_commit_author commit w
     = (Ok tt, world_app w (only_stdout ("提交作者: " ++ fstr name)))) /\
  (member commit "author" = None \/
   (exists author, member commit "author" = Some author /\
                   member author "name" = None) ->
   exists e,
     print_commit_author commit w = (Raise e, w) /\
     (exn_type e = KeyError \/ exn_type e = TypeError)).
Proof.
  split.
  - intros author name Hauthor Hname.
    destruct commit as [| | | | | |items]; try discriminate.
    destruct author as [| | | | | |aitems]; try discriminate.
    cbn [member] in Hauthor, Hname.
    assert (Hadds : adds (print_commit_author (PDict items))
                      (fun r d =>
                         r = Ok tt /\
                         d = only_stdout ("提交作者: " ++ fstr name))).
    { unfold print_commit_author. cbn [py_subscript]. rewrite Hauthor.
      repeat first [ progress (cbn [py_subscript]; rewrite ?Hname)
                   | adds_step ].
      now split. }
    destruct Hadds as (r & d & Hrun & -> & ->). apply Hrun.
  - intro Hmissing.
    unfold print_commit_author, bind, lift.
    destruct commit as [| | | | | |items];
      try (eexists; split; [reflexivity|now right]).
    cbn [member] in Hmissing. cbn [py_subscript].
    destruct Hmissing as [Hauthor|(author & Hauthor & Hname)]; rewrite Hauthor.
    + eexists; split; [reflexivity|now left].
    + destruct author as [| | | | | |aitems];
        try (eexists; split; [reflexivity|now right]).
      cbn [member] in Hname. cbn [py_subscript]. rewrite Hname.
      eexists; split; [reflexivity|now left].
Qed.
End PrintingFacts.

(** ** File lists given as strings or objects *)

Lemma as_strings_map_PStr (ss : list string) : as_strings (map PStr ss) = Some ss.
Proof.
  induction ss as [|s ss IH]; cbn [map as_strings].
  - reflexivity.
  - now rewrite IH.
Qed.

Section Iterated.
Context `{PyRuntime}.

Lemma py_iter_iterated (items : list (string * pyval)) (k : string)
    (ss : list string) :
  as_iterated (dict_get items k) = Some ss ->
  exists v xs,
    py_get (PDict items) k (PList []) = Ok v /\
    py_iter v = Ok xs /\
    as_strings xs = Some ss.
Proof.
  unfold py_get, as_iterated.
  destruct (dict_get items k) as [[| | | |s|xs|fields]|]; try discriminate;
    intro Hss.
  - injection Hss as <-. exists (PStr s), (map PStr (str_chars s)).
    repeat split. apply as_strings_map_PStr.
  - exists (PList xs), xs. now repeat split.
  - injection Hss as <-. exists (PDict fields), (map PStr (dict_keys fields)).
    repeat split. apply as_strings_map_PStr.
  - injection Hss as <-. exists (PList []), []. now repeat split.
Qed.

Lemma append_commit_iterated (commit : pyval) (c : Commit) :
  as_iterated_commit commit = Some c ->
  append_commit "" commit = Ok (report_block c).
Proof.
  destruct commit as [| | | | | |items]; try discriminate.
  unfold as_iterated_commit.
  destruct (dict_get items "message") as [[| | | |m| |]|] eqn:Hm; try discriminate.
  destruct (dict_get items "author") as [[| | | | | |author]|] eqn:Ha;
    try discriminate.
  destruct (dict_get author "name") as [[| | | |n| |]|] eqn:Hn; try discriminate.
  destruct (as_iterated (dict_get items "modified")) as [ms|] eqn:Hms;
    [|discriminate].
  destruct (as_iterated (dict_get items "added")) as [ads|] eqn:Hads;
    [|discriminate].
  destruct (as_iterated (dict_get items "removed")) as [rs|] eqn:Hrs;
    [|discriminate].
  intro Hc. injection Hc as <-.
  destruct (py_iter_iterated _ _ _ Hms) as (vm & xm & Gm & Im & Sm).
  destruct (py_iter_iterated _ _ _ Hads) as (va & xa & Ga & Ia & Sa).
  destruct (py_iter_iterated _ _ _ Hrs) as (vr & xr & Gr & Ir & Sr).
  unfold append_commit.
  cbn [py_subscript]. rewrite Hm. cbn [rbind]. rewrite Ha. cbn [rbind py_subscript].
  rewrite Hn. cbn [rbind]. rewrite Gm, Ga, Gr. cbn [rbind].
  rewrite Im, Ia, Ir. cbn [rbind].
  f_equal.
  rewrite (append_file_lines_acc "  [删除] " xr).
  rewrite (append_file_lines_acc "  [新增] " xa).
  rewrite (append_file_lines_acc "  [修改] " xm).
  change "  [删除] " with ("  " ++ "[删除]" ++ " ").
  change "  [新增] " with ("  " ++ "[新增]" ++ " ").
  change "  [修改] " with ("  " ++ "[修改]" ++ " ").
  rewrite (append_file_lines_strings _ _ _ Sm).
  rewrite (append_file_lines_strings _ _ _ Sa).
  rewrite (append_file_lines_strings _ _ _ Sr).
  unfold report_block. cbn [message author_name modified added removed fstr].
  str_normalize. reflexivity.
Qed.

(** X17.  The formatter also takes a [modified], [added] or [removed] that
    is a string or an object: a string is listed one line per character and
    an object one line per key, in order.  For at most 100 such commits the
    text is the report of the commits so read, and the world is left as it
    was. *)
Theorem formatter_iterates_strings_and_objects (commits : list pyval)
    (cs : list Commit) (w : world) :
  as_iterated_commits commits = Some cs ->
  (length commits <= 100)%nat ->
  build_commit_info_text (PList commits) w = (Ok (report cs), w).
Proof.
  intros Hcs Hlen.
  rewrite build_commit_info_text_within_cap by exact Hlen. f_equal.
  clear Hlen. revert cs Hcs.
  induction commits as [|commit rest IH]; intros cs Hcs.
  - injection Hcs as <-. reflexivity.
  - cbn [as_iterated_commits] in Hcs.
    destruct (as_iterated_commit commit) as [c|] eqn:Hc; [|discriminate].
    destruct (as_iterated_commits rest) as [cs'|]; [|discriminate].
    injection Hcs as <-.
    cbn [for_each_commit].
    rewrite (append_commit_iterated _ _ Hc). cbn [rbind].
    rewrite for_each_commit_acc, (IH cs' eq_refl).
    reflexivity.
Qed.
End Iterated.

(** ** The further properties at concrete inputs *)


(** X9 at a well-formed commit followed by one without [author]. *)
Lemma key_missing_detail_names_the_key_witness :
  dict_get anonymous_commit "author" = None /\
  exists resp,
    fst (run willing_host
           (post "push"
              (Some (push_payload ([sample_commit] ++ PDict anonymous_commit :: [])))))
    = Ok resp /\
    body_get (body resp) "detail" = Some "'author'".
Proof.
  split; [reflexivity|].
  assert (Hlen : (length ([sample_commit] ++ PDict anonymous_commit :: []) <= 100)%nat)
    by (cbn [length app]; lia).
  destruct (@key_missing_detail_names_the_key ascii_runtime willing_host
              (post "push"
                 (Some (push_payload
                          ([sample_commit] ++ PDict anonymous_commit :: []))))
              (push_payload ([sample_commit] ++ PDict anonymous_commit :: []))
              [sample_commit] [] anonymous_commit (report [sample_Commit])
              empty_world
              eq_refl eq_refl eq_refl eq_refl eq_refl Hlen eq_refl
              (or_intror (or_introl eq_refl)))
    as (resp & Hresp & _ & _ & Hdetail).
  exists resp. split; [exact Hresp|exact Hdetail].
Defined.

(** X10 at a constructor failure whose message names the network: the
    answer is GENERAL_ERROR. *)
Lemma client_failure_keeps_its_class_witness :
  misskey_connect (host_failing_client (Exn OtherException "network is down"))
    (misskey_url (host_failing_client (Exn OtherException "network is down")))
    (access_token (host_failing_client (Exn OtherException "network is down")))
  = Some (Exn OtherException "network is down") /\
  contains "network" (py_lower (PyRuntime:=ascii_runtime) "network is down") = true /\
  answers (run (host_failing_client (Exn OtherException "network is down"))
             (post "push" (Some (push_payload [sample_commit]))))
    500 (Some "GENERAL_ERROR").
Proof.
  split; [reflexivity|split; [reflexivity|]].
  exact (proj1 (@client_failure_keeps_its_class ascii_runtime
                  (host_failing_client (Exn OtherException "network is down"))
                  (post "push" (Some (push_payload [sample_commit])))
                  (push_payload [sample_commit]) [sample_commit]
                  (report [sample_Commit])
                  (Exn OtherException "network is down") empty_world
                  eq_refl eq_refl eq_refl eq_refl eq_refl eq_refl eq_refl)).
Defined.

(** X11 at the ref [refs/heads/feature/login]. *)
Lemma push_log_names_the_branch_witness :
  dict_get sample_items "ref" = Some (PStr "refs/heads/feature/login") /\
  exists prefix branch later,
    "refs/heads/feature/login" = prefix ++ branch /\
    contains "/" branch = false /\
    log (snd (handle_github_push_event (H:=ascii_runtime) willing_host
                (PDict sample_items) empty_world))
    = (INFO, "处理GitHub推送事件，仓库: docs，分支: " ++ branch) :: later.
Proof.
  split; [reflexivity|].
  destruct (@push_log_names_the_branch ascii_runtime willing_host sample_items
              [("name", PStr "docs")] "docs" "refs/heads/feature/login"
              empty_world eq_refl eq_refl eq_refl)
    as (prefix & branch & later & Href & Hbranch & _ & Hlog).
  exists prefix, branch, later. split; [exact Href|split; [exact Hbranch|exact Hlog]].
Defined.

(** X12 at the empty object. *)
Lemma handle_needs_a_string_ref_witness :
  (forall r, member (PDict []) "ref" <> Some (PStr r)) /\
  exists msg,
    handle_github_push_event (H:=ascii_runtime) willing_host (PDict []) empty_world
    = (Raise (Exn AttributeError msg), empty_world).
Proof.
  assert (Href : forall r, member (PDict []) "ref" <> Some (PStr r))
    by (intros r; discriminate).
  split; [exact Href|].
  exact (@handle_needs_a_string_ref ascii_runtime willing_host (PDict [])
           empty_world Href).
Defined.

(** X13 at an object with [ref] and [repository] only. *)
Lemma handle_defaults_commits_to_empty_witness :
  dict_get sample_items "commits" = None /\
  handle_github_push_event (H:=ascii_runtime) willing_host (PDict sample_items)
    empty_world
  = handle_github_push_event (H:=ascii_runtime) willing_host
      (PDict (sample_items ++ [("commits", PList [])])) empty_world.
Proof.
  split; [reflexivity|].
  exact (@handle_defaults_commits_to_empty ascii_runtime willing_host sample_items
           empty_world eq_refl).
Defined.

(** X14 at the sample commit: what is printed, and the block the
    formatter writes around the same lines. *)
Lemma print_file_changes_lines_witness :
  as_file_list (dict_get sample_commit_items "modified") = Some ["README.md"] /\
  as_file_list (dict_get sample_commit_items "added") = Some ["a.txt"; "b.txt"] /\
  as_file_list (dict_get sample_commit_items "removed") = Some [] /\
  stdout (snd (print_file_changes (H:=ascii_runtime) (PDict sample_commit_items)
                 empty_world))
  = [ "文件变化（该提交中修改、新增和删除的文件）:";
      "  [修改] README.md"; "  [新增] a.txt"; "  [新增] b.txt" ] /\
  build_commit_info_text (H:=ascii_runtime) (PList [PDict sample_commit_items])
    empty_world
  = (Ok ("文档已更新～构建可能还需要一段时间，请耐心等待完成，预计1~5分钟:x11:" ++ nl ++
         nl ++
         "更新日志: fix typo" ++ nl ++
         "更新作者: alice" ++ nl ++
         "文件变化（该提交中修改、新增和删除的文件）:" ++ nl ++
         "```" ++ nl ++
         "  [修改] README.md" ++ nl ++
         "  [新增] a.txt" ++ nl ++
         "  [新增] b.txt" ++ nl ++
         "```" ++ nl), empty_world).
Proof.
  split; [reflexivity|split; [reflexivity|split; [reflexivity|]]].
  destruct (@print_file_changes_lines ascii_runtime sample_commit_items
              ["README.md"] ["a.txt"; "b.txt"] [] empty_world
              eq_refl eq_refl eq_refl) as (Hrun & _ & Hblock).
  split; [rewrite Hrun; reflexivity|].
  exact (Hblock (PStr "fix typo") [("name", PStr "alice")] (PStr "alice")
           eq_refl eq_refl eq_refl).
Defined.

(** X15 at a commit whose [added] is [null]. *)
Lemma print_file_changes_keeps_partial_output_witness :
  as_file_list (dict_get null_added_items "modified") = Some ["README.md"] /\
  is_iterable (files_field null_added_items "added") = false /\
  exists msg,
    print_file_changes (H:=ascii_runtime) (PDict null_added_items) empty_world
    = (Raise (Exn TypeError msg),
       World [] ["文件变化（该提交中修改、新增和删除的文件）:"; "  [修改] README.md"]
             [] [] "").
Proof.
  split; [reflexivity|split; [reflexivity|]].
  destruct (@print_file_changes_keeps_partial_output ascii_runtime null_added_items
              ["README.md"] empty_world eq_refl eq_refl) as (msg & Hrun).
  exists msg. exact Hrun.
Defined.

(** X17 at a commit whose [modified] is the string [ab]. *)
Lemma formatter_iterates_strings_and_objects_witness :
  as_iterated_commits [stringly_commit]
  = Some [MkCommit "m" "n" ["a"; "b"] [] ["x"]] /\
  (length [stringly_commit] <= 100)%nat /\
  build_commit_info_text (H:=ascii_runtime) (PList [stringly_commit]) empty_world
  = (Ok (report [MkCommit "m" "n" ["a"; "b"] [] ["x"]]), empty_world).
Proof.
  assert (Hlen : (length [stringly_commit] <= 100)%nat) by (cbn [length]; lia).
  split; [reflexivity|split; [exact Hlen|]].
  exact (@formatter_iterates_strings_and_objects ascii_runtime [stringly_commit]
           [MkCommit "m" "n" ["a"; "b"] [] ["x"]] empty_world eq_refl Hlen).
Defined.

(** X7 at a push without commits. *)
Lemma push_event_schema_accepts_witness :
  is_valid push_event_schema (push_payload []) = true /\
  exists items ritems name ref commits,
    push_payload [] = PDict items /\
    dict_get items "repository" = Some (PDict ritems) /\
    dict_get ritems "name" = Some (PStr name) /\
    dict_get items "ref" = Some (PStr ref) /\
    dict_get items "commits" = Some (PList commits).
Proof.
  split; [reflexivity|].
  exact (proj1 (push_event_schema_accepts (push_payload [])) eq_refl).
Defined.

(** X16 at the sample commit. *)
Lemma print_commit_author_prints_or_raises_witness :
  member sample_commit "author" = Some (PDict [("name", PStr "alice")]) /\
  member (PDict [("name", PStr "alice")]) "name" = Some (PStr "alice") /\
  print_commit_author (H:=ascii_runtime) sample_commit empty_world
  = (Ok tt, World [] ["提交作者: alice"] [] [] "").
Proof.
  split; [reflexivity|split; [reflexivity|]].
  exact (proj1 (@print_commit_author_prints_or_raises ascii_runtime sample_commit
                  empty_world)
           (PDict [("name", PStr "alice")]) (PStr "alice") eq_refl eq_refl).
Defined.
